(** * Build core: command dispatch and configuration mutation

    A shallow embedding of three source files of the build core:
    - [commands/run_command.js]: the command dispatcher and its eligibility
      policy ([runCommand], [shouldRunCommand], [getFireCommand],
      [tFireCommand]);
    - the configuration updater ([updateConfig], [restoreConfig] and their
      helpers), which persists configuration mutations and reverts them;
    - the functions plugin: [writeRedirectsFile], and the wrapping and
      packaging of the handlers ([tempFileName], [generateHandler],
      [processFunction], [packageFunction] and the [postbuild] hook).

    Asynchronous functions are computations in a state-and-rejection monad:
    a promise either resolves with a value or rejects with an error, and
    every [await] is a bind. *)

From Stdlib Require Import Ascii String ZArith.
From stdpp Require Import gmap strings list fin_maps pretty.

Open Scope string_scope.

(** ** Promises *)

Module Async.

(** What a rejected promise carries. *)
Inductive error : Type :=
| ENOENT (path : string)
| TypeError (msg : string)
| Failure (msg : string).

Inductive outcome (A : Type) : Type :=
| Resolved (a : A)
| Rejected (e : error).
Arguments Resolved {A} a.
Arguments Rejected {A} e.

Definition M (S A : Type) : Type := S → outcome A * S.

Definition ret {S A} (a : A) : M S A := λ s, (Resolved a, s).

Definition throw {S A} (e : error) : M S A := λ s, (Rejected e, s).

Definition bind {S A B} (m : M S A) (k : A → M S B) : M S B :=
  λ s, match m s with
       | (Resolved a, s') => k a s'
       | (Rejected e, s') => (Rejected e, s')
       end.

(** [try { await m } catch (_) {}] *)
Definition try_catch_ignore {S A} (m : M S A) : M S unit :=
  λ s, (Resolved tt, (m s).2).

(** [await Promise.all([t1, ..., tn])], results discarded.  Every task is
    started and runs to its end, also when an earlier one rejects; the
    whole rejects with the first rejection.  The tasks are taken in array
    order. *)
Fixpoint promise_all {S} (tasks : list (M S unit)) : M S unit :=
  λ s, match tasks with
       | [] => (Resolved tt, s)
       | t :: ts =>
           let '(r, s1) := t s in
           let '(rs, s2) := promise_all ts s1 in
           (match r with Rejected e => Rejected e | Resolved _ => rs end, s2)
       end.

Definition is_resolved {A} (r : outcome A) : bool :=
  match r with Resolved _ => true | Rejected _ => false end.

End Async.

Import Async.

Notation "x <- m ;; k" := (bind m (λ x, k))
  (at level 100, m at next level, right associativity).
Notation "m ;;; k" := (bind m (λ _, k))
  (at level 100, right associativity).

(** ** The file system

    A flat name space of regular files, the directories created so far, and
    a spy that records every operation issued, oldest first.  A path is a
    JS value that may be [undefined] ([None]). *)

Module Fs.

Inductive fs_op : Type :=
| OpExists (path : option string)
| OpUnlink (path : option string)
| OpCopy (source destination : option string)
| OpWrite (path : option string) (data : string)
| OpAppend (path : option string) (data : string)
| OpRead (path : option string)
| OpMkdir (path : string).

Record disk : Type := Disk {
  files : gmap string string;
  dirs : gset string;
  spy : list fs_op;
}.

Definition record (op : fs_op) (d : disk) : disk :=
  Disk (files d) (dirs d) (spy d ++ [op])%list.

Definition set_files (f : gmap string string) (d : disk) : disk :=
  Disk f (dirs d) (spy d).

Definition content (d : disk) (path : option string) : option string :=
  p ← path; files d !! p.

Definition is_file (d : disk) (path : option string) : bool :=
  bool_decide (is_Some (content d path)).

(** [path-exists]: resolves to [false] on any failure, also for a path
    that is [undefined]. *)
Definition pathExists (path : option string) : M disk bool :=
  λ d, (Resolved (is_file d path), record (OpExists path) d).

(** [promisify(fs.unlink)] *)
Definition pUnlink (path : option string) : M disk unit :=
  λ d, let d' := record (OpUnlink path) d in
       match path with
       | None => (Rejected (TypeError "path"), d')
       | Some p =>
           match files d !! p with
           | None => (Rejected (ENOENT p), d')
           | Some _ => (Resolved tt, set_files (delete p (files d)) d')
           end
       end.

(** [cp-file] *)
Definition cpFile (source destination : option string) : M disk unit :=
  λ d, let d' := record (OpCopy source destination) d in
       match source, destination with
       | Some src, Some dst =>
           match files d !! src with
           | None => (Rejected (ENOENT src), d')
           | Some c => (Resolved tt, set_files (<[dst := c]> (files d)) d')
           end
       | _, _ => (Rejected (Failure "`source` and `destination` required"), d')
       end.

(** [promisify(fs.writeFile)] *)
Definition pWriteFile (path : option string) (data : string) : M disk unit :=
  λ d, let d' := record (OpWrite path data) d in
       match path with
       | None => (Rejected (TypeError "path"), d')
       | Some p => (Resolved tt, set_files (<[p := data]> (files d)) d')
       end.

(** [make-dir] *)
Definition makeDir (path : string) : M disk unit :=
  λ d, (Resolved tt, Disk (files d) ({[path]} ∪ dirs d) (spy d ++ [OpMkdir path])%list).

(** [fs.readFile] *)
Definition readFile (path : string) : M disk string :=
  λ d, let d' := record (OpRead (Some path)) d in
       match files d !! path with
       | None => (Rejected (ENOENT path), d')
       | Some c => (Resolved c, d')
       end.

(** [fs.appendFile]: creates the file when it is missing. *)
Definition appendFile (path : string) (data : string) : M disk unit :=
  λ d, let d' := record (OpAppend (Some path) data) d in
       (Resolved tt,
        set_files (<[path := default "" (files d !! path) +:+ data]> (files d)) d').

(** A collaborator that only reads the files. *)
Definition reading {A} (f : gmap string string → outcome A) : M disk A :=
  λ d, (f (files d), d).

End Fs.

Import Fs.

(** ** The configuration updater *)

Module Update.

Section Updater.

(** Types and functions of the sibling modules ([./apply], [../context],
    [../parse], [../merge], [../headers], [../redirects], [../simplify],
    [../utils/toml]).  The three that look at the disk only read it. *)
Context {Mutation Value Logs : Type}.

Local Abbreviation Config := (gmap string Value).

Variable applyMutations : Config → list Mutation → Config.
Variable ensureConfigPriority : Config → option string → option string → Config.
Variable parseOptionalConfig : option string → gmap string string → outcome Config.
Variable mergeConfigs : list Config → Config.
Variable addConfigHeaders :
  Config → option string → Logs → gmap string string → outcome Config.
Variable addConfigRedirects :
  Config → option string → Logs → gmap string string → outcome Config.
Variable simplifyConfig : Config → Config.
Variable serializeToml : Config → string.

(** The second argument of [updateConfig] and [restoreConfig]. *)
Record options : Type := Options {
  buildDir : string;
  configPath : option string;
  headersPath : option string;
  redirectsPath : option string;
  context : option string;
  branch : option string;
  logs : Logs;
}.

Definition getTempDir (buildDir : string) : string :=
  buildDir +:+ "/.netlify/deploy".

Definition deleteNoError (path : option string) : M disk unit :=
  try_catch_ignore (pUnlink path).

Definition backupFile (original : option string) (backup : string) : M disk unit :=
  deleteNoError (Some backup) ;;;
  exists_ <- pathExists original ;;
  if negb exists_ then ret tt
  else cpFile original (Some backup).

Definition copyOrDelete (src : string) (dest : option string) : M disk unit :=
  exists_ <- pathExists (Some src) ;;
  if exists_ then cpFile (Some src) dest
  else deleteNoError dest.

Definition backupConfig (buildDir : string)
    (configPath headersPath redirectsPath : option string) : M disk unit :=
  let tempDir := getTempDir buildDir in
  makeDir tempDir ;;;
  promise_all [
    backupFile configPath (tempDir +:+ "/netlify.toml");
    backupFile headersPath (tempDir +:+ "/_headers");
    backupFile redirectsPath (tempDir +:+ "/_redirects")
  ].

Definition restoreConfig (configMutations : list Mutation) (o : options)
    : M disk unit :=
  if (length configMutations =? 0)%nat then ret tt
  else
    let tempDir := getTempDir (buildDir o) in
    promise_all [
      copyOrDelete (tempDir +:+ "/netlify.toml") (configPath o);
      copyOrDelete (tempDir +:+ "/_headers") (headersPath o);
      copyOrDelete (tempDir +:+ "/_redirects") (redirectsPath o)
    ].

Definition mergeWithConfig (normalizedInlineConfig : Config)
    (configPath : option string) : M disk Config :=
  config <- reading (parseOptionalConfig configPath) ;;
  let updatedConfig := mergeConfigs [config; normalizedInlineConfig] in
  ret updatedConfig.

Definition saveConfig (configPath : option string) (simplifiedConfig : Config)
    : M disk unit :=
  let serializedConfig := serializeToml simplifiedConfig in
  pWriteFile configPath serializedConfig.

Definition deleteSideFile (filePath : option string) (propName : string)
    (normalizedInlineConfig : Config) : M disk unit :=
  if bool_decide (normalizedInlineConfig !! propName = None)
     || bool_decide (filePath = None)
  then ret tt
  else
    exists_ <- pathExists filePath ;;
    if negb exists_ then ret tt
    else pUnlink filePath.

Definition updateConfig (configMutations : list Mutation) (o : options)
    : M disk unit :=
  if (length configMutations =? 0)%nat then ret tt
  else
    let inlineConfig := applyMutations ∅ configMutations in
    let normalizedInlineConfig :=
      ensureConfigPriority inlineConfig (context o) (branch o) in
    updatedConfig <- mergeWithConfig normalizedInlineConfig (configPath o) ;;
    configWithHeaders <-
      reading (addConfigHeaders updatedConfig (headersPath o) (logs o)) ;;
    finalConfig <-
      reading (addConfigRedirects configWithHeaders (redirectsPath o) (logs o)) ;;
    let simplifiedConfig := simplifyConfig finalConfig in
    backupConfig (buildDir o) (configPath o) (headersPath o) (redirectsPath o) ;;;
    promise_all [
      saveConfig (configPath o) simplifiedConfig;
      deleteSideFile (headersPath o) "headers" normalizedInlineConfig;
      deleteSideFile (redirectsPath o) "redirects" normalizedInlineConfig
    ].

(** The three files that are backed up and restored. *)
Inductive slot : Type := ConfigSlot | HeadersSlot | RedirectsSlot.

Definition backupName (s : slot) : string :=
  match s with
  | ConfigSlot => "/netlify.toml"
  | HeadersSlot => "/_headers"
  | RedirectsSlot => "/_redirects"
  end.

Definition backupPath (buildDir : string) (s : slot) : string :=
  getTempDir buildDir +:+ backupName s.

Definition livePath (o : options) (s : slot) : option string :=
  match s with
  | ConfigSlot => configPath o
  | HeadersSlot => headersPath o
  | RedirectsSlot => redirectsPath o
  end.

(** A live path is not a backup location. *)
Definition outsideBackups (buildDir : string) (path : option string) : bool :=
  match path with
  | None => true
  | Some p =>
      bool_decide (p ≠ backupPath buildDir ConfigSlot)
      && bool_decide (p ≠ backupPath buildDir HeadersSlot)
      && bool_decide (p ≠ backupPath buildDir RedirectsSlot)
  end.

Definition liveOutsideBackups (o : options) : bool :=
  outsideBackups (buildDir o) (configPath o)
  && outsideBackups (buildDir o) (headersPath o)
  && outsideBackups (buildDir o) (redirectsPath o).

Definition distinct (a b : option string) : bool :=
  match a, b with
  | Some x, Some y => bool_decide (x ≠ y)
  | _, _ => true
  end.

(** The live paths that are supplied are three different files. *)
Definition liveDistinct (o : options) : bool :=
  distinct (configPath o) (headersPath o)
  && distinct (configPath o) (redirectsPath o)
  && distinct (headersPath o) (redirectsPath o).

(** The file at [path] was there [before] and is gone [after]. *)
Definition deleted (before after : disk) (path : option string) : Prop :=
  is_Some (content before path) ∧ content after path = None.

End Updater.

End Update.

(** ** The functions plugin: the [_redirects] writer *)

Module Redirects.

(** The values a redirect rule holds: primitives.  A number is an integer. *)
Inductive js : Type :=
| JUndefined
| JNull
| JBool (b : bool)
| JNumber (n : Z)
| JString (s : string).

(** [ToBoolean] *)
Definition truthy (v : js) : bool :=
  match v with
  | JUndefined | JNull => false
  | JBool b => b
  | JNumber n => negb (n =? 0)%Z
  | JString s => negb (String.eqb s "")
  end.

(** [ToString], as a template literal applies it. *)
Definition toString (v : js) : string :=
  match v with
  | JUndefined => "undefined"
  | JNull => "null"
  | JBool b => if b then "true" else "false"
  | JNumber n => pretty n
  | JString s => s
  end.

(** What [Array.prototype.join] makes of one element. *)
Definition joined (v : js) : string :=
  match v with
  | JUndefined | JNull => ""
  | _ => toString v
  end.

(** [pieces.join(sep)] on strings *)
Fixpoint join (sep : string) (pieces : list string) : string :=
  match pieces with
  | [] => ""
  | [p] => p
  | p :: ps => p +:+ sep +:+ join sep ps
  end.

(** [haystack.indexOf(needle)] *)
Definition indexOf (haystack needle : string) : Z :=
  match String.index 0 needle haystack with
  | Some i => Z.of_nat i
  | None => -1
  end.

(** [v.concat(s)]: only a string has the method. *)
Definition concat (v : js) (s : string) : outcome js :=
  match v with
  | JString t => Resolved (JString (t +:+ s))
  | _ => Rejected (TypeError "status.concat is not a function")
  end.

Definition newline : string := String "010"%char "".

Definition HEADER_COMMENT : string := "## Created with netlify functions plugin".

(** A redirect rule; [rest] holds its other keys in enumeration order. *)
Record redirect : Type := Redirect {
  fromPath : js;
  isPermanent : js;
  redirectInBrowser : js;
  force : js;
  toPath : js;
  statusCode : js;
  rest : list (string * js);
}.

Record rewrite_rule : Type := Rewrite {
  rewriteFrom : js;
  rewriteTo : js;
}.

(** The body of [for (let key in rest)]; the warning printed for a skipped
    value is not modelled. *)
Definition restPieces (rest : list (string * js)) : list string :=
  flat_map (λ kv : string * js,
    let '(key, value) := kv in
    match value with
    | JString s =>
        if (indexOf s " " >=? 0)%Z then []
        else [key +:+ "=" +:+ toString value]
    | _ => [key +:+ "=" +:+ toString value]
    end) rest.

(** The callback of [redirects.map]. *)
Definition formatRedirect (r : redirect) : outcome string :=
  let status := if truthy (isPermanent r) then JString "301" else JString "302" in
  let status := if truthy (statusCode r) then statusCode r else status in
  let status := if truthy (force r) then concat status "!" else Resolved status in
  match status with
  | Rejected e => Rejected e
  | Resolved status =>
      let pieces :=
        ([joined (fromPath r); joined (toPath r); joined status]
           ++ restPieces (rest r))%list in
      Resolved (join "  " pieces)
  end.

(** [redirects.map(callback)], which stops at the first exception. *)
Fixpoint formatRedirects (redirects : list redirect) : outcome (list string) :=
  match redirects with
  | [] => Resolved []
  | r :: rs =>
      match formatRedirect r with
      | Rejected e => Rejected e
      | Resolved line =>
          match formatRedirects rs with
          | Rejected e => Rejected e
          | Resolved lines => Resolved (line :: lines)
          end
      end
  end.

(** The callback of [rewrites.map]. *)
Definition formatRewrite (r : rewrite_rule) : string :=
  toString (rewriteFrom r) +:+ "  " +:+ toString (rewriteTo r) +:+ "  200".

(** What the function returns: [null], or the [undefined] of the write. *)
Inductive returned : Type := Null | Undefined.

(** [fs-extra]'s [exists] and [writeFile]. *)
Definition fs_exists (path : string) : M disk bool := pathExists (Some path).
Definition fs_writeFile (path : string) (data : string) : M disk unit :=
  pWriteFile (Some path) data.

Definition lift {A} (r : outcome A) : M disk A := λ d, (r, d).

Section Writer.

(** Node's [path.join]. *)
Variable path_join : string → string → string.

Definition writeRedirectsFile (buildDir : string) (redirects : list redirect)
    (rewrites : list rewrite_rule) : M disk returned :=
  if (length redirects =? 0)%nat && (length rewrites =? 0)%nat then ret Null
  else
    let FILE_PATH := path_join buildDir "_redirects" in
    redirects' <- lift (formatRedirects redirects) ;;
    let rewrites' := map formatRewrite rewrites in
    fileExists <- fs_exists FILE_PATH ;;
    appendToFile <-
      (if fileExists then
         fileContents <- readFile FILE_PATH ;;
         if (indexOf fileContents HEADER_COMMENT <? 0)%Z then ret true
         else ret false
       else ret false) ;;
    let data :=
      HEADER_COMMENT +:+ newline +:+ newline
        +:+ join newline (redirects' ++ rewrites')%list in
    if appendToFile : bool
    then appendFile FILE_PATH (newline +:+ newline +:+ data) ;;; ret Undefined
    else fs_writeFile FILE_PATH data ;;; ret Undefined.

End Writer.

End Redirects.

(** ** The command dispatcher *)

Module Dispatch.

(** The three kinds of events of the spec. *)
Inductive category : Type := AlwaysEligible | FailureOnly | SuccessOnly.

(** Modelled from the spec: [runsAlsoOnBuildFailure] of [./get], which is
    not among the sources.  An event runs although the build failed when it
    is always-eligible or failure-only. *)
Definition runsAlsoOnBuildFailure (categoryOf : string → category)
    (event : string) : bool :=
  match categoryOf event with
  | AlwaysEligible | FailureOnly => true
  | SuccessOnly => false
  end.

(** Modelled from the spec: [runsOnlyOnBuildFailure] of [./get], which is
    not among the sources.  An event runs only when the build failed when
    it is failure-only. *)
Definition runsOnlyOnBuildFailure (categoryOf : string → category)
    (event : string) : bool :=
  match categoryOf event with
  | FailureOnly => true
  | AlwaysEligible | SuccessOnly => false
  end.

(** [failedPlugins.includes(packageName)], where the name may be
    [undefined] and the array holds strings. *)
Definition includes (failedPlugins : list string) (packageName : option string)
    : bool :=
  match packageName with
  | None => false
  | Some name => bool_decide (name ∈ failedPlugins)
  end.

(** A value of the returned object: a number or anything else. *)
Inductive value (Opaque : Type) : Type :=
| VNumber (n : Z)
| VOther (o : Opaque).
Arguments VNumber {Opaque} n.
Arguments VOther {Opaque} o.

(** Which timer [measureDuration] is asked for. *)
Inductive timer : Type :=
| StageTimer (stageTag : string)
| PluginTimer (event : string) (parentTag : string).

Section Dispatcher.

Context {World BuildError CoreCommand Constants Passed Raw Fired Opaque : Type}.

(** The argument of [runCommand]: the fields this file looks at, and, in
    [passed], those it only hands on.  [index] is the position of the
    command in the build, an integer. *)
Record command : Type := Command {
  event : string;
  packageName : option string;
  coreCommand : option CoreCommand;
  coreCommandId : option string;
  coreCommandName : option string;
  buildCommand : option string;
  buildDir : string;
  index : Z;
  constants : Constants;
  error : option BuildError;
  failedPlugins : list string;
  passed : Passed;
}.

(** The functions of [./get] that decide on an event. *)
Variable alsoOnFailure onlyOnFailure : string → bool.

Definition shouldRunCommand (event : string) (packageName : option string)
    (error : option BuildError) (failedPlugins : list string) : bool :=
  if includes failedPlugins packageName then false
  else if bool_decide (error ≠ None) then alsoOnFailure event
  else negb (onlyOnFailure event).

(** The sibling modules: constants, logging, the three executors, the
    timing wrapper and the post-processing of a result. *)
Variable getConstants : Constants → string → M World Constants.
Variable logCommand : command → M World unit.
Variable fireCoreCommand : command → Constants → M World Raw.
Variable fireBuildCommand : command → M World Raw.
Variable firePluginCommand : command → Constants → M World Raw.
Variable measureDuration :
  (command * Constants → M World Raw) → timer → command * Constants → M World Fired.
Variable normalizeTimerName : option string → string.
Variable getCommandReturn : command → Fired → M World (gmap string (value Opaque)).

Definition tFireCommand (a : command * Constants) : M World Raw :=
  let '(c, constants) := a in
  if bool_decide (coreCommand c ≠ None) then fireCoreCommand c constants
  else if bool_decide (buildCommand c ≠ None) then fireBuildCommand c
  else firePluginCommand c constants.

Definition getFireCommand (packageName : option string)
    (buildCommand coreCommandId : option string) (event : string)
    : command * Constants → M World Fired :=
  match coreCommandId with
  | Some id => measureDuration tFireCommand (StageTimer id)
  | None =>
      if bool_decide (buildCommand ≠ None)
      then measureDuration tFireCommand (StageTimer "build_command")
      else
        let parentTag := normalizeTimerName packageName in
        measureDuration tFireCommand (PluginTimer event parentTag)
  end.

Definition runCommand (c : command) : M World (gmap string (value Opaque)) :=
  constantsA <- getConstants (constants c) (buildDir c) ;;
  if negb (shouldRunCommand (event c) (packageName c) (error c) (failedPlugins c))
  then ret ∅
  else
    logCommand c ;;;
    let fireCommand :=
      getFireCommand (packageName c) (buildCommand c) (coreCommandId c) (event c) in
    fired <- fireCommand (c, constantsA) ;;
    newValues <- getCommandReturn c fired ;;
    ret (<["newIndex" := VNumber (index c + 1)]> newValues).

(** What the spec asks of every call: the call returns an object whose
    [newIndex] is [index + 1]. *)
Definition carriesNextIndex (c : command)
    (r : outcome (gmap string (value Opaque))) : Prop :=
  ∃ returned, r = Resolved returned
    ∧ returned !! "newIndex" = Some (VNumber (index c + 1)).

End Dispatcher.

End Dispatch.

(** ** The functions plugin: wrapping and packaging the handlers *)

Module Functions.

Import Redirects.

(** [filePath.replace(/\.js$/, '-temp.js')]: the pattern matches only where
    the rest of the string is [.js]. *)
Fixpoint tempFileName (filePath : string) : string :=
  match filePath with
  | "" => ""
  | String c rest =>
      if String.eqb filePath ".js" then "-temp.js"
      else String c (tempFileName rest)
  end.

(** One entry of [conf.functions]. *)
Module Conf.
Record functionData : Type := FunctionData {
  handler : string;
  path : js;
  method : js;
}.
End Conf.

(** An element of [data.functions]. *)
Record func : Type := Func {
  name : string;
  filename : string;
  path : string;
  method : js;
}.

(** The accumulator of the [reduce] in [postbuild]. *)
Record data : Type := Data {
  functions : list func;
  rewrites : list rewrite_rule;
  redirects : list redirect;
}.

Definition dquote : string := String "034"%char "".

(** [fs-extra]'s [copy], [unlink] and [ensureDir], on regular files. *)
Definition fs_copy (src dest : string) : M disk unit := cpFile (Some src) (Some dest).
Definition fs_unlink (path : string) : M disk unit := pUnlink (Some path).
Definition fs_ensureDir (dir : string) : M disk unit := makeDir dir.

Section Plugin.

(** Node's [path.join], [path.resolve], [path.basename] and
    [process.cwd()]; the bundler's [zipFunction]; and the test
    [content.match(/Netlify function wrapper/)] on what [readFile] gave,
    which may throw. *)
Variable path_join : string → string → string.
Variable path_resolve : string → string.
Variable path_basename : string → string.
Variable cwd : string.
Variable zipFunction : string → string → M disk unit.
Variable matchesWrapper : string → outcome bool.

(** The callback of [Object.keys(conf.functions).reduce]; the messages
    printed on the console are not modelled. *)
Definition addFunction (acc : data) (entry : string * Conf.functionData) : data :=
  let '(functionName, functionData) := entry in
  let functionPath := path_resolve (Conf.handler functionData) in
  let originalPath := "/.netlify/functions/" +:+ functionName in
  {| rewrites :=
       (rewrites acc ++ [Rewrite (Conf.path functionData) (JString originalPath)])%list;
     functions :=
       (functions acc
          ++ [{| name := functionName;
                 filename := Conf.handler functionData;
                 path := functionPath;
                 method := Conf.method functionData |}])%list;
     redirects := redirects acc |}.

(** [conf.functions] as the list of its entries in key order. *)
Definition collect (conf_functions : list (string * Conf.functionData)) : data :=
  fold_left addFunction conf_functions
    {| functions := []; rewrites := []; redirects := [] |}.

Definition generateHandler (f : func) : string :=
  let tempFile := path_basename (tempFileName (path f)) in
  join newline [
    "";
    "/* Netlify function wrapper */";
    "let originalFunction, handlerError";
    "try {";
    "  originalFunction = require('./" +:+ tempFile +:+ "')";
    "} catch (err) {";
    "  handlerError = err";
    "}";
    "";
    "exports['handler'] = function " +:+ name f +:+ "(event, context, callback) {";
    "  if (handlerError) {";
    "    return callback(handlerError)";
    "  }";
    "  if (event.httpMethod !== " +:+ dquote +:+ toString (method f) +:+ dquote
      +:+ ") {";
    "    const errorMessage = `" +:+ dquote +:+ "${event.httpMethod}" +:+ dquote
      +:+ " not allowed`";
    "    console.log(errorMessage)";
    "    return callback(errorMessage)";
    "  }";
    "  try {";
    "    return originalFunction['handler'](event, context, callback)";
    "  } catch (err) {";
    "    throw err";
    "  }";
    "}"
  ].

Definition packageFunction (functionPath destFolder : string) : M disk unit :=
  fs_ensureDir destFolder ;;;
  zipFunction functionPath destFolder.

Definition processFunction (f : func) (destFolder : string) : M disk string :=
  let tempPath := tempFileName (path f) in
  exists_ <- fs_exists tempPath ;;
  (if exists_ : bool then
     content <- readFile (path f) ;;
     wrapped <- lift (matchesWrapper content) ;;
     if wrapped : bool then fs_copy tempPath (path f) else ret tt
   else ret tt) ;;;
  fs_copy (path f) tempPath ;;;
  let handler := generateHandler f in
  fs_writeFile (path f) handler ;;;
  packageFunction (path f) destFolder ;;;
  fs_copy tempPath (path f) ;;;
  fs_unlink tempPath ;;;
  ret handler.

(** The [postbuild] hook; [conf.functions] is [undefined] or an object. *)
Definition postbuild (conf_functions : option (list (string * Conf.functionData)))
    : M disk unit :=
  match conf_functions with
  | None => throw (Failure "You must provide functions to the functions plugin")
  | Some entries =>
      let buildFolder := path_join cwd "build" in
      let destFolder := path_join buildFolder "functions" in
      let data := collect entries in
      let processFuncs :=
        map (λ f, processFunction f destFolder ;;; ret tt) (functions data) in
      promise_all processFuncs ;;;
      writeRedirectsFile path_join buildFolder (redirects data) (rewrites data) ;;;
      ret tt
  end.

End Plugin.

End Functions.

(** ** Sample builds

    Concrete collaborators, options and disks on which the functions above
    can be run. *)

Module Sample.

Import Update Redirects Dispatch.

(** A mutation sets one top-level key. *)
Definition applyMutations (config : gmap string string)
    (configMutations : list (string * string)) : gmap string string :=
  fold_left (λ c kv, <[kv.1 := kv.2]> c) configMutations config.

Definition mergeConfigs (configs : list (gmap string string)) : gmap string string :=
  fold_left (λ merged c, c ∪ merged) configs ∅.

Definition updateConfig :
    list (string * string) → @options unit → M disk unit :=
  Update.updateConfig applyMutations (λ c _ _, c) (λ _ _, Resolved ∅)
    mergeConfigs (λ c _ _ _, Resolved c) (λ c _ _ _, Resolved c) (λ c, c)
    (λ _, "# merged").

Definition site : @options unit :=
  Options "site" (Some "site/netlify.toml") (Some "site/_headers")
    (Some "site/_redirects") None None tt.

(** A site with both side files and no configuration file. *)
Definition siteDisk : disk :=
  Disk {[ "site/_headers" := "/* X-Frame-Options: DENY";
          "site/_redirects" := "/old /new 301" ]} ∅ [].

Definition setHeaders : list (string * string) := [("headers", "[[headers]]")].

Definition path_join (a b : string) : string := a +:+ "/" +:+ b.

(** The events of a build and their kinds. *)
Definition categoryOf (event : string) : category :=
  if String.eqb event "onError" then FailureOnly
  else if String.eqb event "onEnd" then AlwaysEligible
  else SuccessOnly.

(** A dispatcher whose collaborators do nothing and return nothing. *)
Definition runCommand (c : @command unit unit unit unit)
    : M unit (gmap string (value unit)) :=
  Dispatch.runCommand
    (runsAlsoOnBuildFailure categoryOf) (runsOnlyOnBuildFailure categoryOf)
    (λ constants _, ret constants) (λ _, ret tt)
    (λ _ _, ret tt) (λ _, ret tt) (λ _ _, ret tt)
    (λ fire _ a, fire a) (λ name, default "" name)
    (λ _ _, ret ∅) c.

(** A plugin hook at position 3. *)
Definition onBuildOf (packageName : string) (failedPlugins : list string)
    : @command unit unit unit unit :=
  Command "onBuild" (Some packageName) None None None None "site" 3 tt None
    failedPlugins tt.

(** Collaborators of the functions plugin: the bundler leaves a zip of the
    file in the destination folder. *)
Definition zipFunction (functionPath destFolder : string) : M disk unit :=
  λ d, (Resolved tt,
        set_files
          (<[destFolder +:+ "/bundle.zip" := default "" (files d !! functionPath)]>
             (files d)) d).

Definition matchesWrapper (content : string) : outcome bool :=
  Resolved (0 <=? Redirects.indexOf content "Netlify function wrapper")%Z.

Definition processFunction : Functions.func → string → M disk string :=
  Functions.processFunction (λ p, p) zipFunction matchesWrapper.

Definition postbuild :
    option (list (string * Functions.Conf.functionData)) → M disk unit :=
  Functions.postbuild path_join (λ handler, "/repo/" +:+ handler) (λ p, p)
    "/repo" zipFunction matchesWrapper.

Definition hello : Functions.func :=
  Functions.Func "hello" "src/hello.js" "/repo/src/hello.js"
    (Redirects.JString "GET").

Definition helloEntry : string * Functions.Conf.functionData :=
  ("hello",
   Functions.Conf.FunctionData "src/hello.js" (Redirects.JString "/api/hello")
     (Redirects.JString "GET")).

Definition repoDisk : disk :=
  Disk {[ "/repo/src/hello.js" := "exports.handler = () => {}" ]} ∅ [].

End Sample.

(** * Properties *)

(** ** Promises and file operations *)

Section FsFacts.

Lemma promise_all_3 {S} (a b c : M S unit) (s : S) :
  promise_all [a; b; c] s =
    let '(ra, s1) := a s in
    let '(rb, s2) := b s1 in
    let '(rc, s3) := c s2 in
    (match ra with
     | Rejected e => Rejected e
     | Resolved _ =>
         match rb with
         | Rejected e => Rejected e
         | Resolved _ => match rc with Rejected e => Rejected e | Resolved _ => Resolved tt end
         end
     end, s3).
Proof.
  cbn. destruct (a s) as [ra s1], (b s1) as [rb s2], (c s2) as [rc s3].
  destruct ra, rb, rc; try destruct a0; try destruct a1; try destruct a2; reflexivity.
Qed.

Lemma promise_all_3_state {S} (a b c : M S unit) (s : S) :
  (promise_all [a; b; c] s).2 = (c (b (a s).2).2).2.
Proof.
  rewrite promise_all_3.
  destruct (a s) as [ra s1]; cbn. destruct (b s1) as [rb s2]; cbn.
  destruct (c s2) as [rc s3]; reflexivity.
Qed.

Lemma is_file_content (d : disk) (path : option string) :
  is_file d path = true ↔ is_Some (content d path).
Proof. unfold is_file. apply bool_decide_eq_true. Qed.

Lemma is_file_false (d : disk) (path : option string) :
  is_file d path = false ↔ content d path = None.
Proof.
  unfold is_file. rewrite bool_decide_eq_false, eq_None_not_Some. reflexivity.
Qed.

End FsFacts.

(** ** The configuration updater: what each helper does to the disk *)

Section UpdateHelpers.

Import Update.

Lemma pUnlink_disk (path : option string) (d : disk) :
  (pUnlink path d).2 =
    Disk (match path with Some p => delete p (files d) | None => files d end)
         (dirs d) (spy d ++ [OpUnlink path]).
Proof.
  unfold pUnlink. destruct path as [p|]; cbn; [|reflexivity].
  destruct (files d !! p) eqn:E; cbn; [reflexivity|].
  by rewrite delete_id.
Qed.

Lemma deleteNoError_run (path : option string) (d : disk) :
  deleteNoError path d =
    (Resolved tt,
     Disk (match path with Some p => delete p (files d) | None => files d end)
          (dirs d) (spy d ++ [OpUnlink path])).
Proof.
  unfold deleteNoError, try_catch_ignore. by rewrite pUnlink_disk.
Qed.

(** [backupFile] never rejects: it drops the old backup, then copies the
    original if it is there. *)
Lemma backupFile_run (original : option string) (backup : string) (d : disk) :
  backupFile original backup d =
    (Resolved tt,
     let stale_gone := delete backup (files d) in
     match original ≫= (stale_gone !!.) with
     | Some c =>
         Disk (<[backup := c]> stale_gone) (dirs d)
           (spy d ++ [OpUnlink (Some backup); OpExists original;
                      OpCopy original (Some backup)])
     | None =>
         Disk stale_gone (dirs d)
           (spy d ++ [OpUnlink (Some backup); OpExists original])
     end).
Proof.
  unfold backupFile, bind. rewrite deleteNoError_run. cbn.
  unfold is_file, content. cbn.
  destruct original as [p|]; cbn;
    [destruct (delete backup (files d) !! p) as [c|] eqn:E; cbn; rewrite ?E|];
    unfold ret, set_files, record; cbn; by rewrite <- ?app_assoc.
Qed.

(** [copyOrDelete] makes the destination hold what the source holds, a
    missing source meaning a missing destination. *)
Lemma copyOrDelete_files (src : string) (dest : option string) (d : disk) :
  files (copyOrDelete src dest d).2 =
    match dest with
    | Some q => partial_alter (λ _, files d !! src) q (files d)
    | None => files d
    end.
Proof.
  unfold copyOrDelete, bind, pathExists. cbn. unfold is_file, content. cbn.
  destruct (files d !! src) as [c|] eqn:E; cbn.
  - unfold cpFile. cbn. rewrite E. destruct dest; reflexivity.
  - rewrite pUnlink_disk. cbn. destruct dest; reflexivity.
Qed.

Lemma copyOrDelete_outcome (src : string) (dest : option string) (d : disk) :
  (copyOrDelete src dest d).1 =
    match files d !! src, dest with
    | Some _, None => Rejected (Failure "`source` and `destination` required")
    | _, _ => Resolved tt
    end.
Proof.
  unfold copyOrDelete, bind, pathExists. cbn. unfold is_file, content. cbn.
  destruct (files d !! src) as [c|] eqn:E; cbn.
  - unfold cpFile. cbn. rewrite E. destruct dest; reflexivity.
  - reflexivity.
Qed.

Lemma backupFile_files (p backup : string) (d : disk) :
  files (backupFile (Some p) backup d).2 =
    match delete backup (files d) !! p with
    | Some c => <[backup := c]> (delete backup (files d))
    | None => delete backup (files d)
    end.
Proof.
  rewrite backupFile_run. cbn [snd mbind option_bind].
  by destruct (delete backup (files d) !! p).
Qed.

Lemma backupFile_resolves (original : option string) (backup : string) (d : disk) :
  (backupFile original backup d).1 = Resolved tt.
Proof. by rewrite backupFile_run. Qed.

Lemma backupFile_frame (original : option string) (backup k : string) (d : disk) :
  k ≠ backup →
  files (backupFile original backup d).2 !! k = files d !! k.
Proof.
  intros Hne. rewrite backupFile_run. cbn.
  destruct (original ≫= _) as [c|]; cbn.
  - rewrite lookup_insert_ne, lookup_delete_ne; done.
  - rewrite lookup_delete_ne; done.
Qed.

Lemma backupConfig_resolves (dir : string) (cp hp rp : option string) (d : disk) :
  (backupConfig dir cp hp rp d).1 = Resolved tt.
Proof.
  unfold backupConfig, bind, makeDir. rewrite promise_all_3.
  rewrite !backupFile_run. reflexivity.
Qed.

Lemma backupConfig_frame (dir : string) (cp hp rp : option string) (k : string)
    (d : disk) :
  (∀ s, k ≠ backupPath dir s) →
  files (backupConfig dir cp hp rp d).2 !! k = files d !! k.
Proof.
  intros Hk. unfold backupConfig, bind, makeDir.
  rewrite promise_all_3_state.
  rewrite backupFile_frame by apply (Hk RedirectsSlot).
  rewrite backupFile_frame by apply (Hk HeadersSlot).
  rewrite backupFile_frame by apply (Hk ConfigSlot).
  reflexivity.
Qed.

Lemma pWriteFile_frame (path : option string) (data k : string) (d : disk) :
  path ≠ Some k → files (pWriteFile path data d).2 !! k = files d !! k.
Proof.
  intros Hne. unfold pWriteFile. destruct path as [p|]; cbn; [|done].
  rewrite lookup_insert_ne; congruence.
Qed.

Lemma deleteSideFile_run {Value} (filePath : option string) (propName : string)
    (normalizedInlineConfig : gmap string Value) (d : disk) :
  (deleteSideFile filePath propName normalizedInlineConfig d).1 = Resolved tt
  ∧ files (deleteSideFile filePath propName normalizedInlineConfig d).2 =
      match normalizedInlineConfig !! propName, filePath with
      | Some _, Some p => delete p (files d)
      | _, _ => files d
      end.
Proof.
  unfold deleteSideFile, bind, pathExists, is_file, content.
  destruct (normalizedInlineConfig !! propName) as [v|] eqn:E; cbn; [|done].
  destruct filePath as [p|]; cbn; [|done].
  destruct (files d !! p) as [c|] eqn:F; cbn.
  - unfold pUnlink. cbn. rewrite F. done.
  - by rewrite delete_id.
Qed.

End UpdateHelpers.

(** ** Restoring: the files after [restoreConfig] *)

Section RestoreFacts.

Import Update.

Context {Mutation Logs : Type}.

(** The destination takes what the source holds. *)
Local Abbreviation put src dest f :=
  (match dest with
   | Some q => partial_alter (λ _, f !! src) q f
   | None => f
   end).

Lemma lookup_put (src : string) (dest : option string)
    (f : gmap string string) (k : string) :
  put src dest f !! k = if decide (dest = Some k) then f !! src else f !! k.
Proof.
  destruct dest as [q|].
  - rewrite lookup_partial_alter.
    destruct (decide (q = k)) as [->|Hne].
    + by rewrite decide_True.
    + rewrite decide_False; [done | congruence].
  - by rewrite decide_False.
Qed.

Lemma outsideBackups_ne (dir : string) (p : string) (s : slot) :
  outsideBackups dir (Some p) = true → p ≠ backupPath dir s.
Proof.
  unfold outsideBackups. rewrite !andb_true_iff, !bool_decide_eq_true.
  intros [[? ?] ?]. by destruct s.
Qed.

Lemma liveOutsideBackups_ne (o : @options Logs) (s s' : slot) :
  liveOutsideBackups o = true → livePath o s ≠ Some (backupPath (buildDir o) s').
Proof.
  unfold liveOutsideBackups. rewrite !andb_true_iff. intros [[Hc Hh] Hr] E.
  destruct s; cbn in E; rewrite E in *;
    eapply outsideBackups_ne; eauto.
Qed.

Lemma restoreConfig_files (configMutations : list Mutation) (o : @options Logs)
    (d : disk) :
  configMutations ≠ [] →
  files (restoreConfig configMutations o d).2 =
    put (backupPath (buildDir o) RedirectsSlot) (redirectsPath o)
      (put (backupPath (buildDir o) HeadersSlot) (headersPath o)
         (put (backupPath (buildDir o) ConfigSlot) (configPath o) (files d))).
Proof.
  intros Hne. unfold restoreConfig.
  destruct configMutations; [done|]. cbn [length Nat.eqb].
  rewrite promise_all_3_state, !copyOrDelete_files. reflexivity.
Qed.

(** Where each path ends up after the three restores, when no live path is
    a backup location. *)
Lemma restoreConfig_lookup (configMutations : list Mutation) (o : @options Logs)
    (d : disk) (k : string) :
  configMutations ≠ [] →
  liveOutsideBackups o = true →
  files (restoreConfig configMutations o d).2 !! k =
    if decide (redirectsPath o = Some k)
    then files d !! backupPath (buildDir o) RedirectsSlot
    else if decide (headersPath o = Some k)
    then files d !! backupPath (buildDir o) HeadersSlot
    else if decide (configPath o = Some k)
    then files d !! backupPath (buildDir o) ConfigSlot
    else files d !! k.
Proof.
  intros Hne Hout. rewrite restoreConfig_files by done.
  pose proof (liveOutsideBackups_ne o ConfigSlot HeadersSlot Hout) as H1.
  pose proof (liveOutsideBackups_ne o ConfigSlot RedirectsSlot Hout) as H2.
  pose proof (liveOutsideBackups_ne o HeadersSlot RedirectsSlot Hout) as H3.
  cbn [livePath] in *.
  rewrite lookup_put. case_decide; [|rewrite lookup_put; case_decide].
  - rewrite !lookup_put. by rewrite !decide_False.
  - rewrite lookup_put. by rewrite decide_False.
  - by rewrite lookup_put.
Qed.

Lemma restoreConfig_keeps_backups (configMutations : list Mutation)
    (o : @options Logs) (d : disk) (s : slot) :
  liveOutsideBackups o = true →
  files (restoreConfig configMutations o d).2 !! backupPath (buildDir o) s =
    files d !! backupPath (buildDir o) s.
Proof.
  intros Hout. destruct configMutations as [|m ms]; [done|].
  rewrite restoreConfig_lookup by done.
  pose proof (liveOutsideBackups_ne o ConfigSlot s Hout).
  pose proof (liveOutsideBackups_ne o HeadersSlot s Hout).
  pose proof (liveOutsideBackups_ne o RedirectsSlot s Hout).
  cbn [livePath] in *. by rewrite !decide_False.
Qed.

(** Whether a restore rejects depends on the backups and the live paths
    only: a slot rejects when its backup is there and its live path is
    [undefined]. *)
Lemma restoreConfig_outcome (configMutations : list Mutation) (o : @options Logs)
    (d : disk) :
  configMutations ≠ [] →
  liveOutsideBackups o = true →
  (restoreConfig configMutations o d).1 =
    (promise_all
       (map (λ s (_ : unit),
               (match files d !! backupPath (buildDir o) s, livePath o s with
                | Some _, None =>
                    Rejected (Failure "`source` and `destination` required")
                | _, _ => Resolved tt
                end, tt))
            [ConfigSlot; HeadersSlot; RedirectsSlot]) tt).1.
Proof.
  intros Hne Hout. destruct configMutations as [|m ms]; [done|].
  unfold restoreConfig. cbn [length Nat.eqb map].
  rewrite !promise_all_3.
  pose proof (liveOutsideBackups_ne o ConfigSlot HeadersSlot Hout) as H1.
  pose proof (liveOutsideBackups_ne o ConfigSlot RedirectsSlot Hout) as H2.
  pose proof (liveOutsideBackups_ne o HeadersSlot RedirectsSlot Hout) as H3.
  cbn [livePath] in *.
  set (b1 := getTempDir (buildDir o) +:+ "/netlify.toml").
  set (b2 := getTempDir (buildDir o) +:+ "/_headers").
  set (b3 := getTempDir (buildDir o) +:+ "/_redirects").
  change (backupPath (buildDir o) ConfigSlot) with b1 in *.
  change (backupPath (buildDir o) HeadersSlot) with b2 in *.
  change (backupPath (buildDir o) RedirectsSlot) with b3 in *.
  pose proof (copyOrDelete_outcome b1 (configPath o) d) as O1.
  pose proof (copyOrDelete_files b1 (configPath o) d) as F1.
  destruct (copyOrDelete b1 (configPath o) d) as [r1 d1]. cbn [fst snd] in *.
  pose proof (copyOrDelete_outcome b2 (headersPath o) d1) as O2.
  pose proof (copyOrDelete_files b2 (headersPath o) d1) as F2.
  destruct (copyOrDelete b2 (headersPath o) d1) as [r2 d2]. cbn [fst snd] in *.
  pose proof (copyOrDelete_outcome b3 (redirectsPath o) d2) as O3.
  destruct (copyOrDelete b3 (redirectsPath o) d2) as [r3 d3]. cbn [fst snd] in *.
  assert (files d1 !! b2 = files d !! b2) as E2.
  { rewrite F1, lookup_put. by rewrite decide_False. }
  assert (files d2 !! b3 = files d !! b3) as E3.
  { rewrite F2, lookup_put, decide_False by done.
    rewrite F1, lookup_put. by rewrite decide_False. }
  rewrite E2 in O2. rewrite E3 in O3. subst r1 r2 r3.
  destruct (files d !! b1), (configPath o), (files d !! b2), (headersPath o),
    (files d !! b3), (redirectsPath o); reflexivity.
Qed.

End RestoreFacts.

(** ** The configuration updater: the claims *)

Section UpdateFacts.

Import Update.

Context {Mutation Value Logs : Type}.

Variable applyMutations : gmap string Value → list Mutation → gmap string Value.
Variable ensureConfigPriority :
  gmap string Value → option string → option string → gmap string Value.
Variable parseOptionalConfig :
  option string → gmap string string → outcome (gmap string Value).
Variable mergeConfigs : list (gmap string Value) → gmap string Value.
Variable addConfigHeaders :
  gmap string Value → option string → Logs → gmap string string →
  outcome (gmap string Value).
Variable addConfigRedirects :
  gmap string Value → option string → Logs → gmap string string →
  outcome (gmap string Value).
Variable simplifyConfig : gmap string Value → gmap string Value.
Variable serializeToml : gmap string Value → string.

Local Abbreviation update :=
  (updateConfig applyMutations ensureConfigPriority parseOptionalConfig
     mergeConfigs addConfigHeaders addConfigRedirects simplifyConfig
     serializeToml).

(** C2. With an empty mutation log, [updateConfig] and [restoreConfig]
    resolve at once and leave the disk as it was: no file is changed and the
    spy has recorded no operation at all. *)
Theorem empty_log_leaves_disk_untouched (o : @options Logs) (d : disk) :
  update [] o d = (Resolved tt, d)
  ∧ restoreConfig ([] : list Mutation) o d = (Resolved tt, d).
Proof. split; reflexivity. Qed.

(** C7. Restoring twice in a row leaves the same files as restoring once,
    and the second call resolves or rejects as the first did, provided no
    live path is one of the backup locations. *)
Theorem restoreConfig_twice (configMutations : list Mutation)
    (o : @options Logs) (d : disk) :
  configMutations ≠ [] →
  liveOutsideBackups o = true →
  let once := restoreConfig configMutations o d in
  let twice := restoreConfig configMutations o once.2 in
  files twice.2 = files once.2 ∧ twice.1 = once.1.
Proof.
  intros Hne Hout once twice. subst once twice. split.
  - apply map_eq. intros k.
    rewrite (restoreConfig_lookup _ _ (restoreConfig configMutations o d).2) by done.
    rewrite !restoreConfig_keeps_backups by done.
    rewrite (restoreConfig_lookup _ _ d) by done.
    repeat case_decide; reflexivity.
  - rewrite !restoreConfig_outcome by done. cbn [map].
    by rewrite !restoreConfig_keeps_backups.
Qed.

(** C10. With a non-empty log, a slot that has no backup loses its live
    file: [restoreConfig] does not check that a backup was ever taken.  The
    live paths are taken to be different files, none of them a backup
    location. *)
Theorem restoreConfig_without_backup (configMutations : list Mutation)
    (o : @options Logs) (d : disk) (s : slot) :
  configMutations ≠ [] →
  liveOutsideBackups o = true →
  liveDistinct o = true →
  files d !! backupPath (buildDir o) s = None →
  content (restoreConfig configMutations o d).2 (livePath o s) = None.
Proof.
  intros Hne Hout Hdis Hnone. unfold content.
  destruct (livePath o s) as [p|] eqn:Hp; [cbn|done].
  rewrite restoreConfig_lookup by done.
  unfold liveDistinct, distinct in Hdis.
  rewrite !andb_true_iff in Hdis. destruct Hdis as [[D1 D2] D3].
  destruct s; cbn in Hp, Hnone; rewrite Hp in *.
  - destruct (headersPath o) as [h|], (redirectsPath o) as [r|];
      repeat match goal with
             | H : bool_decide _ = true |- _ => apply bool_decide_eq_true in H
             end;
      repeat case_decide; simplify_eq; done.
  - destruct (configPath o) as [c|], (redirectsPath o) as [r|];
      repeat match goal with
             | H : bool_decide _ = true |- _ => apply bool_decide_eq_true in H
             end;
      repeat case_decide; simplify_eq; done.
  - destruct (configPath o) as [c|], (headersPath o) as [h|];
      repeat match goal with
             | H : bool_decide _ = true |- _ => apply bool_decide_eq_true in H
             end;
      repeat case_decide; simplify_eq; done.
Qed.

(** X24. When no slot has a backup, [restoreConfig] on a non-empty log
    removes every live file, whatever the paths are. *)
Lemma restoreConfig_no_backup_at_all (configMutations : list Mutation)
    (o : @options Logs) (d : disk) (s : slot) :
  configMutations ≠ [] →
  (∀ s', files d !! backupPath (buildDir o) s' = None) →
  content (restoreConfig configMutations o d).2 (livePath o s) = None.
Proof.
  intros Hne Hnone. unfold content.
  destruct (livePath o s) as [p|] eqn:Hp; [cbn|done].
  rewrite restoreConfig_files by done.
  assert (∀ b dest (f : gmap string string), f !! b = None →
            match dest with
            | Some q => partial_alter (λ _, f !! b) q f
            | None => f
            end = from_option (λ q, delete q f) f dest) as Hput.
  { intros b dest f Hb. destruct dest; cbn; [|done]. by rewrite Hb. }
  assert (∀ b dest (f : gmap string string), f !! b = None →
            from_option (λ q, delete q f) f dest !! b = None) as Hkeep.
  { intros b dest f Hb. destruct dest; cbn; [|done].
    apply lookup_delete_None. by right. }
  rewrite (Hput _ (configPath o)) by apply Hnone.
  rewrite (Hput _ (headersPath o)) by (apply Hkeep, Hnone).
  rewrite (Hput _ (redirectsPath o)) by (apply Hkeep, Hkeep, Hnone).
  destruct s; cbn in Hp; rewrite Hp; cbn;
    destruct (configPath o), (headersPath o), (redirectsPath o); cbn;
    simplify_eq; rewrite ?lookup_delete_None; tauto.
Qed.

Lemma backupPath_inj (dir : string) (s s' : slot) :
  backupPath dir s = backupPath dir s' → s = s'.
Proof.
  unfold backupPath. intros E%(inj (String.append _)).
  by destruct s, s'.
Qed.

(** After [backupConfig] each backup location holds what the live file of
    its slot held, content or nothing. *)
Lemma backupConfig_captures (o : @options Logs) (d : disk) (s : slot) :
  liveOutsideBackups o = true →
  files (backupConfig (buildDir o) (configPath o) (headersPath o)
           (redirectsPath o) d).2 !! backupPath (buildDir o) s
  = content d (livePath o s).
Proof.
  intros Hout. unfold backupConfig, bind, makeDir.
  rewrite promise_all_3_state.
  change (getTempDir (buildDir o) +:+ "/netlify.toml")
    with (backupPath (buildDir o) ConfigSlot).
  change (getTempDir (buildDir o) +:+ "/_headers")
    with (backupPath (buildDir o) HeadersSlot).
  change (getTempDir (buildDir o) +:+ "/_redirects")
    with (backupPath (buildDir o) RedirectsSlot).
  assert (∀ s1 s2, s1 ≠ s2 → backupPath (buildDir o) s1 ≠ backupPath (buildDir o) s2)
    as Hb by (intros s1 s2 Hne E; by apply Hne, (backupPath_inj (buildDir o))).
  assert (∀ s1 s2, livePath o s1 ≠ Some (backupPath (buildDir o) s2)) as Hl
    by (intros; by apply liveOutsideBackups_ne).
  assert (∀ orig b x, orig ≠ Some b →
            files (backupFile orig b x).2 !! b = content x orig) as Hcap.
  { intros orig b x Hne. rewrite backupFile_run. cbn [snd]. unfold content.
    assert (orig ≫= (delete b (files x) !!.) = orig ≫= (files x !!.)) as ->.
    { destruct orig as [p|]; [cbn|done]. rewrite lookup_delete_ne; congruence. }
    destruct (orig ≫= _); cbn [files].
    - by rewrite lookup_insert_eq.
    - by rewrite lookup_delete_eq. }
  assert (∀ path orig b x, path ≠ Some b →
            content (backupFile orig b x).2 path = content x path) as Hframe.
  { intros path orig b x Hne. unfold content.
    destruct path as [p|]; [cbn|done].
    apply backupFile_frame. congruence. }
  destruct s.
  - rewrite !backupFile_frame by (apply Hb; done).
    by rewrite Hcap by apply (Hl ConfigSlot).
  - rewrite backupFile_frame by (apply Hb; done).
    rewrite Hcap by apply (Hl HeadersSlot).
    by rewrite Hframe by apply (Hl HeadersSlot).
  - rewrite Hcap by apply (Hl RedirectsSlot).
    by rewrite !Hframe by apply (Hl RedirectsSlot).
Qed.

(** X23. The round trip of the whole configuration: [backupConfig] followed
    at once by [restoreConfig] gives every live path back what it held,
    when no live path is a backup location. *)
Lemma backupConfig_then_restoreConfig (configMutations : list Mutation)
    (o : @options Logs) (d : disk) (s : slot) :
  configMutations ≠ [] →
  liveOutsideBackups o = true →
  let saved :=
    (backupConfig (buildDir o) (configPath o) (headersPath o) (redirectsPath o)
       d).2 in
  content (restoreConfig configMutations o saved).2 (livePath o s)
  = content d (livePath o s).
Proof.
  intros Hne Hout saved. unfold content at 1.
  destruct (livePath o s) as [p|] eqn:Hp; [cbn [mbind option_bind]|done].
  rewrite restoreConfig_lookup by done. subst saved.
  rewrite !backupConfig_captures by done. cbn [livePath].
  repeat case_decide;
    repeat match goal with H : _ = Some p |- _ => rewrite H; clear H end;
    try done.
  rewrite backupConfig_frame; [done|].
  intros s' E. apply (liveOutsideBackups_ne o s s' Hout). by rewrite Hp, E.
Qed.

(** C6. Backing a file up and restoring it at once gives the live path
    back what it held: content [C] if it held [C], nothing if it did not
    exist.  Both steps resolve.  The backup location is another path than
    the live one. *)
Theorem backup_then_restore (p backup : string) (d : disk) :
  p ≠ backup →
  let saved := backupFile (Some p) backup d in
  let restored := copyOrDelete backup (Some p) saved.2 in
  saved.1 = Resolved tt
  ∧ restored.1 = Resolved tt
  ∧ files restored.2 !! p = files d !! p.
Proof.
  intros Hne saved restored. subst saved restored.
  rewrite copyOrDelete_outcome, copyOrDelete_files, backupFile_resolves.
  rewrite backupFile_files, lookup_delete_ne by done.
  rewrite lookup_partial_alter, decide_True by done.
  destruct (files d !! p) as [c|] eqn:E.
  - by rewrite lookup_insert_eq.
  - by rewrite lookup_delete_eq.
Qed.

(** C8. Each slot is backed up by [backupFile]: the stale backup goes
    first, its absence being swallowed; then, only when the original is
    there, it is copied to the backup location.  A missing original leaves
    the slot without a backup: afterwards the backup location holds what
    the original held, content or nothing.  Neither a slot nor
    [backupConfig] as a whole rejects. *)
Theorem backup_of_a_slot (o : @options Logs) (original : option string)
    (backup : string) (d : disk) :
  let run := backupFile original backup d in
  let stale_gone := delete backup (files d) in
  backupConfig (buildDir o) (configPath o) (headersPath o) (redirectsPath o) =
    (makeDir (getTempDir (buildDir o)) ;;;
     promise_all
       (map (λ s, backupFile (livePath o s) (backupPath (buildDir o) s))
          [ConfigSlot; HeadersSlot; RedirectsSlot]))
  ∧ run.1 = Resolved tt
  ∧ files run.2 =
      match original ≫= (stale_gone !!.) with
      | Some c => <[backup := c]> stale_gone
      | None => stale_gone
      end
  ∧ spy run.2 =
      (spy d ++ [OpUnlink (Some backup); OpExists original]
         ++ if is_file (set_files stale_gone d) original
            then [OpCopy original (Some backup)] else [])%list
  ∧ files run.2 !! backup = content (set_files stale_gone d) original
  ∧ (backupConfig (buildDir o) (configPath o) (headersPath o) (redirectsPath o) d).1
    = Resolved tt.
Proof.
  intros run stale_gone. subst run.
  assert (is_file (set_files stale_gone d) original
          = bool_decide (is_Some (original ≫= (stale_gone !!.)))) as Hfile
    by reflexivity.
  split; [reflexivity|].
  split; [apply backupFile_resolves|].
  rewrite Hfile, backupFile_run. cbn [snd]. fold stale_gone.
  change (content (set_files stale_gone d) original)
    with (original ≫= (stale_gone !!.)).
  destruct (original ≫= _) as [c|] eqn:E; cbn [files spy].
  - rewrite bool_decide_eq_true_2 by eauto.
    repeat split; try done.
    + apply lookup_insert_eq.
    + apply backupConfig_resolves.
  - rewrite bool_decide_eq_false_2 by (intros [? ?]; congruence).
    repeat split; try done.
    + apply lookup_delete_eq.
    + apply backupConfig_resolves.
Qed.

(** [updateConfig] on a non-empty log, step by step. *)
Lemma updateConfig_steps (m : Mutation) (ms : list Mutation) (o : @options Logs)
    (d : disk) :
  let inline :=
    ensureConfigPriority (applyMutations ∅ (m :: ms)) (context o) (branch o) in
  update (m :: ms) o d =
    match parseOptionalConfig (configPath o) (files d) with
    | Rejected e => (Rejected e, d)
    | Resolved config =>
        match addConfigHeaders (mergeConfigs [config; inline]) (headersPath o)
                (logs o) (files d) with
        | Rejected e => (Rejected e, d)
        | Resolved withHeaders =>
            match addConfigRedirects withHeaders (redirectsPath o) (logs o)
                    (files d) with
            | Rejected e => (Rejected e, d)
            | Resolved final =>
                promise_all [
                  saveConfig serializeToml (configPath o) (simplifyConfig final);
                  deleteSideFile (headersPath o) "headers" inline;
                  deleteSideFile (redirectsPath o) "redirects" inline
                ] (backupConfig (buildDir o) (configPath o) (headersPath o)
                     (redirectsPath o) d).2
            end
        end
    end.
Proof.
  intros inline. unfold updateConfig. cbn [length Nat.eqb]. fold inline.
  unfold mergeWithConfig, bind, reading, ret.
  destruct (parseOptionalConfig _ _) as [config|e]; [|done].
  destruct (addConfigHeaders _ _ _ _) as [withHeaders|e]; [|done].
  destruct (addConfigRedirects _ _ _ _) as [final|e]; [|done].
  pose proof (backupConfig_resolves (buildDir o) (configPath o) (headersPath o)
                (redirectsPath o) d) as Hb.
  destruct (backupConfig _ _ _ _ d) as [rb db]. cbn [fst snd] in *. by subst rb.
Qed.

(** When the three readers resolve and the configuration path is supplied,
    [updateConfig] resolves. *)
Lemma updateConfig_resolves (configMutations : list Mutation) (o : @options Logs)
    (d : disk) (config withHeaders final : gmap string Value) :
  let inline :=
    ensureConfigPriority (applyMutations ∅ configMutations) (context o) (branch o) in
  parseOptionalConfig (configPath o) (files d) = Resolved config →
  addConfigHeaders (mergeConfigs [config; inline]) (headersPath o) (logs o) (files d)
    = Resolved withHeaders →
  addConfigRedirects withHeaders (redirectsPath o) (logs o) (files d)
    = Resolved final →
  is_Some (configPath o) →
  (update configMutations o d).1 = Resolved tt.
Proof.
  intros inline Hparse Hhead Hred [cp Hcp].
  destruct configMutations as [|m ms]; [done|].
  rewrite updateConfig_steps. fold inline. rewrite Hparse, Hhead, Hred.
  rewrite promise_all_3.
  unfold saveConfig, pWriteFile. rewrite Hcp.
  match goal with
  | |- context [deleteSideFile ?a ?b ?c ?x] =>
      destruct (deleteSideFile_run a b c x) as [O1 _];
      destruct (deleteSideFile a b c x) as [r1 d1]
  end.
  cbn in O1. subst r1.
  match goal with
  | |- context [deleteSideFile ?a ?b ?c d1] =>
      destruct (deleteSideFile_run a b c d1) as [O2 _];
      destruct (deleteSideFile a b c d1) as [r2 d2]
  end.
  cbn in O2. subst r2. reflexivity.
Qed.

(** The disk a resolved [updateConfig] leaves: backup, then the write of
    the configuration file, then the two side-file deletions. *)
Lemma updateConfig_state (configMutations : list Mutation) (o : @options Logs)
    (d : disk) :
  let inline :=
    ensureConfigPriority (applyMutations ∅ configMutations) (context o) (branch o) in
  configMutations ≠ [] →
  (update configMutations o d).1 = Resolved tt →
  ∃ simplified : gmap string Value,
    (update configMutations o d).2 =
      (deleteSideFile (redirectsPath o) "redirects" inline
         (deleteSideFile (headersPath o) "headers" inline
            (saveConfig serializeToml (configPath o) simplified
               (backupConfig (buildDir o) (configPath o) (headersPath o)
                  (redirectsPath o) d).2).2).2).2.
Proof.
  intros inline Hne.
  destruct configMutations as [|m ms]; [done|].
  rewrite updateConfig_steps. fold inline.
  destruct (parseOptionalConfig _ _) as [config|e]; [|discriminate].
  destruct (addConfigHeaders _ _ _ _) as [withHeaders|e]; [|discriminate].
  destruct (addConfigRedirects _ _ _ _) as [final|e]; [|discriminate].
  intros _. exists (simplifyConfig final).
  by rewrite promise_all_3_state.
Qed.

(** C5. After a resolved [updateConfig] with a non-empty log, the headers
    (respectively redirects) side file has been deleted exactly when the
    normalized inline configuration has the [headers] (respectively
    [redirects]) key, the path was supplied and the file existed; a side
    file whose key is not in the inline configuration is as it was.  The
    live paths are different files, none of them a backup location. *)
Theorem updateConfig_side_files (configMutations : list Mutation)
    (o : @options Logs) (d d' : disk) :
  let inline :=
    ensureConfigPriority (applyMutations ∅ configMutations) (context o) (branch o) in
  configMutations ≠ [] →
  liveOutsideBackups o = true →
  liveDistinct o = true →
  update configMutations o d = (Resolved tt, d') →
  (deleted d d' (headersPath o) ↔
     is_Some (inline !! "headers") ∧ is_Some (headersPath o)
     ∧ is_file d (headersPath o) = true)
  ∧ (deleted d d' (redirectsPath o) ↔
       is_Some (inline !! "redirects") ∧ is_Some (redirectsPath o)
       ∧ is_file d (redirectsPath o) = true)
  ∧ (inline !! "headers" = None →
     content d' (headersPath o) = content d (headersPath o))
  ∧ (inline !! "redirects" = None →
     content d' (redirectsPath o) = content d (redirectsPath o)).
Proof.
  intros inline Hne Hout Hdis Hrun.
  destruct (updateConfig_state configMutations o d Hne) as [cfg Hstate].
  { by rewrite Hrun. }
  rewrite Hrun in Hstate. cbn [snd] in Hstate. fold inline in Hstate.
  (* the two side files after the call *)
  assert (∀ p, headersPath o = Some p →
            files d' !! p =
              match inline !! "headers" with Some _ => None | None => files d !! p end)
    as Hh.
  { intros p Hp. rewrite Hstate.
    pose proof (liveOutsideBackups_ne o HeadersSlot) as Hb. cbn [livePath] in Hb.
    rewrite Hp in Hb.
    unfold liveDistinct, distinct in Hdis. rewrite Hp in Hdis.
    rewrite !andb_true_iff in Hdis. destruct Hdis as [[D1 D2] D3].
    match goal with
    | |- context [deleteSideFile ?a ?b ?c ?x] =>
        destruct (deleteSideFile_run a b c x) as [_ ->]
    end.
    assert (∀ f : gmap string string,
              match inline !! "redirects", redirectsPath o with
              | Some _, Some q => delete q f
              | _, _ => f
              end !! p = f !! p) as Hskip.
    { intros f. destruct (inline !! "redirects"); [|done].
      destruct (redirectsPath o) as [q|]; [|done].
      apply bool_decide_eq_true in D3. by rewrite lookup_delete_ne. }
    rewrite Hskip.
    match goal with
    | |- context [deleteSideFile ?a ?b ?c ?x] =>
        destruct (deleteSideFile_run a b c x) as [_ ->]
    end.
    rewrite Hp.
    destruct (inline !! "headers"); [by rewrite lookup_delete_eq|].
    unfold saveConfig. rewrite pWriteFile_frame.
    - apply backupConfig_frame. intros s E. by apply (Hb s Hout), f_equal.
    - destruct (configPath o) as [c|]; [|done].
      apply bool_decide_eq_true in D1. congruence. }
  assert (∀ p, redirectsPath o = Some p →
            files d' !! p =
              match inline !! "redirects" with Some _ => None | None => files d !! p end)
    as Hr.
  { intros p Hp. rewrite Hstate.
    pose proof (liveOutsideBackups_ne o RedirectsSlot) as Hb. cbn [livePath] in Hb.
    rewrite Hp in Hb.
    unfold liveDistinct, distinct in Hdis. rewrite Hp in Hdis.
    rewrite !andb_true_iff in Hdis. destruct Hdis as [[D1 D2] D3].
    match goal with
    | |- context [deleteSideFile ?a ?b ?c ?x] =>
        destruct (deleteSideFile_run a b c x) as [_ ->]
    end.
    rewrite Hp.
    destruct (inline !! "redirects"); [by rewrite lookup_delete_eq|].
    match goal with
    | |- context [deleteSideFile ?a ?b ?c ?x] =>
        destruct (deleteSideFile_run a b c x) as [_ ->]
    end.
    assert (∀ f : gmap string string,
              match inline !! "headers", headersPath o with
              | Some _, Some q => delete q f
              | _, _ => f
              end !! p = f !! p) as Hskip.
    { intros f. destruct (inline !! "headers"); [|done].
      destruct (headersPath o) as [q|]; [|done].
      apply bool_decide_eq_true in D3. by rewrite lookup_delete_ne. }
    rewrite Hskip.
    unfold saveConfig. rewrite pWriteFile_frame.
    - apply backupConfig_frame. intros s E. by apply (Hb s Hout), f_equal.
    - destruct (configPath o) as [c|]; [|done].
      apply bool_decide_eq_true in D2. congruence. }
  unfold deleted. rewrite !is_file_content. unfold content.
  destruct (headersPath o) as [h|], (redirectsPath o) as [r|]; cbn;
    rewrite ?(Hh h eq_refl), ?(Hr r eq_refl);
    destruct (inline !! "headers"), (inline !! "redirects");
    repeat split; intros; destruct_and?;
    repeat match goal with
           | H : is_Some None |- _ => by apply is_Some_None in H
           | H : Some _ = None |- _ => discriminate H
           | H : is_Some ?x, H' : ?x = None |- _ => rewrite H' in H
           end; eauto.
Qed.

End UpdateFacts.

(** ** The configuration updater on the sample site *)

Section UpdateExamples.

Import Update.

Lemma updateConfig_side_files_witness :
  let d' := (Sample.updateConfig Sample.setHeaders Sample.site Sample.siteDisk).2 in
  deleted Sample.siteDisk d' (Some "site/_headers")
  ∧ content d' (Some "site/_redirects") = Some "/old /new 301".
Proof.
  intros d'.
  destruct (updateConfig_side_files
              Sample.applyMutations (λ c _ _, c) (λ _ _, Resolved ∅)
              Sample.mergeConfigs (λ c _ _ _, Resolved c) (λ c _ _ _, Resolved c)
              (λ c, c) (λ _, "# merged")
              Sample.setHeaders Sample.site Sample.siteDisk d')
    as (Hh & _ & _ & Hr).
  - discriminate.
  - reflexivity.
  - reflexivity.
  - vm_compute. reflexivity.
  - split.
    + apply Hh. repeat split; [by eexists | by eexists].
    + transitivity (content Sample.siteDisk (redirectsPath Sample.site));
        [apply Hr; reflexivity | reflexivity].
Defined.

Lemma backup_then_restore_witness :
  "site/netlify.toml" ≠ "site/.netlify/deploy/netlify.toml"
  ∧ let d := Disk {[ "site/netlify.toml" := "[build]" ]} ∅ [] in
    files (copyOrDelete "site/.netlify/deploy/netlify.toml"
             (Some "site/netlify.toml")
             (backupFile (Some "site/netlify.toml")
                "site/.netlify/deploy/netlify.toml" d).2).2
      !! "site/netlify.toml" = Some "[build]".
Proof.
  split; [discriminate|]. intros d.
  destruct (backup_then_restore "site/netlify.toml"
              "site/.netlify/deploy/netlify.toml" d) as (_ & _ & ->);
    [discriminate | reflexivity].
Defined.

Lemma restoreConfig_twice_witness :
  Sample.setHeaders ≠ []
  ∧ liveOutsideBackups Sample.site = true
  ∧ let once := restoreConfig Sample.setHeaders Sample.site Sample.siteDisk in
    let twice := restoreConfig Sample.setHeaders Sample.site once.2 in
    files twice.2 = files once.2 ∧ twice.1 = once.1.
Proof.
  split; [discriminate|]. split; [reflexivity|].
  apply (restoreConfig_twice Sample.setHeaders Sample.site Sample.siteDisk);
    [discriminate | reflexivity].
Defined.

Lemma restoreConfig_without_backup_witness :
  Sample.setHeaders ≠ []
  ∧ liveOutsideBackups Sample.site = true
  ∧ liveDistinct Sample.site = true
  ∧ files Sample.siteDisk !! backupPath "site" HeadersSlot = None
  ∧ content Sample.siteDisk (Some "site/_headers") = Some "/* X-Frame-Options: DENY"
  ∧ content (restoreConfig Sample.setHeaders Sample.site Sample.siteDisk).2
      (Some "site/_headers") = None.
Proof.
  split; [discriminate|]. do 4 (split; [reflexivity|]).
  apply (restoreConfig_without_backup Sample.setHeaders Sample.site
           Sample.siteDisk HeadersSlot);
    [discriminate | reflexivity | reflexivity | reflexivity].
Defined.

End UpdateExamples.

(** ** The [_redirects] writer *)

Section RedirectsFacts.

Import Redirects.

Variable path_join : string → string → string.

(** What the writer does when there is at least one rule and the redirects
    can be formatted. *)
Lemma writeRedirectsFile_run (buildDir : string) (redirects : list redirect)
    (rewrites : list rewrite_rule) (lines : list string) (d : disk) :
  let FILE_PATH := path_join buildDir "_redirects" in
  let data :=
    HEADER_COMMENT +:+ newline +:+ newline
      +:+ join newline (lines ++ map formatRewrite rewrites)%list in
  let appendToFile :=
    match files d !! FILE_PATH with
    | Some fileContents => (indexOf fileContents HEADER_COMMENT <? 0)%Z
    | None => false
    end in
  redirects ≠ [] ∨ rewrites ≠ [] →
  formatRedirects redirects = Resolved lines →
  (writeRedirectsFile path_join buildDir redirects rewrites d).1 = Resolved Undefined
  ∧ files (writeRedirectsFile path_join buildDir redirects rewrites d).2 =
      if appendToFile
      then <[FILE_PATH :=
               default "" (files d !! FILE_PATH) +:+ newline +:+ newline +:+ data]>
             (files d)
      else <[FILE_PATH := data]> (files d).
Proof.
  intros FILE_PATH data appendToFile Hrules Hlines.
  unfold writeRedirectsFile.
  assert ((length redirects =? 0)%nat && (length rewrites =? 0)%nat = false) as ->.
  { destruct redirects, rewrites; cbn; try done. by destruct Hrules. }
  fold FILE_PATH. rewrite Hlines. fold data.
  unfold bind, lift, fs_exists, pathExists, readFile, ret, appendFile,
    fs_writeFile, pWriteFile, is_file, content, record, set_files.
  cbn [mbind option_bind files dirs spy fst snd].
  subst appendToFile.
  destruct (files d !! FILE_PATH) as [old|] eqn:E.
  - rewrite bool_decide_eq_true_2 by eauto.
    cbn [files dirs spy fst snd]. rewrite E.
    destruct (indexOf old HEADER_COMMENT <? 0)%Z;
      cbn [files dirs spy fst snd]; rewrite ?E; done.
  - rewrite bool_decide_eq_false_2 by (intros [? ?]; congruence). done.
Qed.

(** C9. Given the one rewrite from [/api] to [/.netlify/functions/api], no
    redirects and no [_redirects] file, the writer creates the file with
    the header comment, an empty line and the line
    [/api  /.netlify/functions/api  200].  And whenever there are rules to
    write and the file is already there without the header comment, the new
    content goes after what the file held, separated by an empty line. *)
Theorem writeRedirectsFile_scenario_and_append (buildDir : string) :
  let FILE_PATH := path_join buildDir "_redirects" in
  (∀ d : disk,
     files d !! FILE_PATH = None →
     let run :=
       writeRedirectsFile path_join buildDir []
         [Rewrite (JString "/api") (JString "/.netlify/functions/api")] d in
     run.1 = Resolved Undefined
     ∧ files run.2 =
         <[FILE_PATH :=
             HEADER_COMMENT +:+ newline +:+ newline
               +:+ "/api  /.netlify/functions/api  200"]> (files d))
  ∧ (∀ (d : disk) (redirects : list redirect) (rewrites : list rewrite_rule)
       (lines : list string) (fileContents : string),
       redirects ≠ [] ∨ rewrites ≠ [] →
       formatRedirects redirects = Resolved lines →
       files d !! FILE_PATH = Some fileContents →
       (indexOf fileContents HEADER_COMMENT < 0)%Z →
       let run := writeRedirectsFile path_join buildDir redirects rewrites d in
       run.1 = Resolved Undefined
       ∧ files run.2 =
           <[FILE_PATH :=
               fileContents +:+ newline +:+ newline
                 +:+ HEADER_COMMENT +:+ newline +:+ newline
                 +:+ join newline (lines ++ map formatRewrite rewrites)%list]>
             (files d)).
Proof.
  intros FILE_PATH. split.
  - intros d Hnone run. subst run.
    destruct (writeRedirectsFile_run buildDir []
                [Rewrite (JString "/api") (JString "/.netlify/functions/api")]
                [] d) as [Hres Hfiles]; [by right | done |].
    fold FILE_PATH in Hfiles. rewrite Hnone in Hfiles. done.
  - intros d redirects rewrites lines old Hrules Hlines Hold Hmark run. subst run.
    destruct (writeRedirectsFile_run buildDir redirects rewrites lines d)
      as [Hres Hfiles]; [done | done |].
    fold FILE_PATH in Hfiles. rewrite Hold in Hfiles.
    apply Z.ltb_lt in Hmark. rewrite Hmark in Hfiles. done.
Qed.

End RedirectsFacts.

Lemma writeRedirectsFile_scenario_and_append_witness :
  (let run :=
     Redirects.writeRedirectsFile Sample.path_join "build" []
       [Redirects.Rewrite (Redirects.JString "/api")
          (Redirects.JString "/.netlify/functions/api")]
       (Disk ∅ ∅ []) in
   files run.2 !! "build/_redirects" =
     Some (Redirects.HEADER_COMMENT +:+ Redirects.newline +:+ Redirects.newline
             +:+ "/api  /.netlify/functions/api  200"))
  ∧ (let run :=
       Redirects.writeRedirectsFile Sample.path_join "build" []
         [Redirects.Rewrite (Redirects.JString "/api")
            (Redirects.JString "/.netlify/functions/api")]
         (Disk {[ "build/_redirects" := "/old  /new  301" ]} ∅ []) in
     files run.2 !! "build/_redirects" =
       Some ("/old  /new  301" +:+ Redirects.newline +:+ Redirects.newline
               +:+ Redirects.HEADER_COMMENT +:+ Redirects.newline
               +:+ Redirects.newline +:+ "/api  /.netlify/functions/api  200")).
Proof.
  destruct (writeRedirectsFile_scenario_and_append Sample.path_join "build")
    as [Hnew Happend].
  split.
  - intros run. subst run.
    destruct (Hnew (Disk ∅ ∅ [])) as [_ ->]; [reflexivity|]. reflexivity.
  - intros run. subst run.
    destruct (Happend (Disk {[ "build/_redirects" := "/old  /new  301" ]} ∅ [])
                []
                [Redirects.Rewrite (Redirects.JString "/api")
                   (Redirects.JString "/.netlify/functions/api")]
                [] "/old  /new  301") as [_ ->];
      [by right | reflexivity | reflexivity | reflexivity | reflexivity].
Defined.

(** ** The dispatcher *)

Section DispatchFacts.

Import Dispatch.

Context {World BuildError CoreCommand Constants Passed Raw Fired Opaque : Type}.

Local Abbreviation command' :=
  (@command BuildError CoreCommand Constants Passed).

Variable alsoOnFailure onlyOnFailure : string → bool.
Variable getConstants : Constants → string → M World Constants.
Variable logCommand : command' → M World unit.
Variable fireCoreCommand : command' → Constants → M World Raw.
Variable fireBuildCommand : command' → M World Raw.
Variable firePluginCommand : command' → Constants → M World Raw.
Variable measureDuration :
  (command' * Constants → M World Raw) → timer →
  command' * Constants → M World Fired.
Variable normalizeTimerName : option string → string.
Variable getCommandReturn :
  command' → Fired → M World (gmap string (value Opaque)).

Local Abbreviation eligible c :=
  (shouldRunCommand alsoOnFailure onlyOnFailure
     (event c) (packageName c) (error c) (failedPlugins c)).

Local Abbreviation run :=
  (runCommand alsoOnFailure onlyOnFailure getConstants logCommand
     fireCoreCommand fireBuildCommand firePluginCommand measureDuration
     normalizeTimerName getCommandReturn).

(** C3. A command of a plugin that is in the failed-plugin set is never
    eligible, whatever the event and whether or not the build has an
    error. *)
Theorem failed_plugin_never_runs (event name : string)
    (error : option BuildError) (failedPlugins : list string) :
  name ∈ failedPlugins →
  shouldRunCommand alsoOnFailure onlyOnFailure event (Some name) error
    failedPlugins = false.
Proof.
  intros Hin. unfold shouldRunCommand, includes.
  by rewrite bool_decide_eq_true_2.
Qed.

(** An ineligible command: once the constants are there, the call resolves
    with the empty object and does nothing else. *)
Lemma runCommand_skipped (c : command') (w w' : World) (constantsA : Constants) :
  getConstants (constants c) (buildDir c) w = (Resolved constantsA, w') →
  eligible c = false →
  run c w = (Resolved ∅, w').
Proof.
  intros Hconst Hno. unfold runCommand, bind. rewrite Hconst, Hno. reflexivity.
Qed.

(** An eligible command whose collaborators all resolve: the call resolves
    with the post-processed values and the next index. *)
Lemma runCommand_ran (c : command') (w w1 w2 w3 w4 : World)
    (constantsA : Constants) (fired : Fired)
    (newValues : gmap string (value Opaque)) :
  getConstants (constants c) (buildDir c) w = (Resolved constantsA, w1) →
  eligible c = true →
  logCommand c w1 = (Resolved tt, w2) →
  getFireCommand fireCoreCommand fireBuildCommand firePluginCommand
    measureDuration normalizeTimerName
    (packageName c) (buildCommand c) (coreCommandId c) (event c)
    (c, constantsA) w2 = (Resolved fired, w3) →
  getCommandReturn c fired w3 = (Resolved newValues, w4) →
  run c w = (Resolved (<["newIndex" := VNumber (index c + 1)]> newValues), w4).
Proof.
  intros Hconst Hyes Hlog Hfire Hret. unfold runCommand, bind.
  rewrite Hconst, Hyes. cbn [negb]. rewrite Hlog, Hfire, Hret. reflexivity.
Qed.

(** C1, as the code has it. A call that resolves returns, for an eligible
    command, an object whose [newIndex] is [index + 1], and for an
    ineligible one the empty object, which has no [newIndex]. *)
Theorem runCommand_newIndex (c : command') (w w' : World)
    (returned : gmap string (value Opaque)) :
  run c w = (Resolved returned, w') →
  if eligible c
  then returned !! "newIndex" = Some (VNumber (index c + 1))
  else returned = ∅ ∧ returned !! "newIndex" = None.
Proof.
  unfold runCommand, bind.
  destruct (getConstants _ _ w) as [[constantsA|e] w1]; [|discriminate].
  destruct (eligible c); cbn [negb].
  - destruct (logCommand c w1) as [[[]|e] w2]; [|discriminate].
    destruct (getFireCommand _ _ _ _ _ _ _ _ _ _ w2) as [[fired|e] w3];
      [|discriminate].
    destruct (getCommandReturn c fired w3) as [[newValues|e] w4]; [|discriminate].
    unfold ret. intros [= <- _]. apply lookup_insert_eq.
  - unfold ret. intros [= <- _]. split; [done | apply lookup_empty].
Qed.

End DispatchFacts.

Section EligibilityFacts.

Import Dispatch.

Context {BuildError : Type}.

(** C4. For a package name that is not in the failed-plugin set: when the
    build has an error the command is eligible exactly when its event is
    always-eligible or failure-only; when it has none, exactly when its
    event is not failure-only. *)
Theorem eligibility_by_category (categoryOf : string → category)
    (event : string) (packageName : option string) (error : option BuildError)
    (failedPlugins : list string) :
  (∀ name, packageName = Some name → name ∉ failedPlugins) →
  let eligible :=
    shouldRunCommand (runsAlsoOnBuildFailure categoryOf)
      (runsOnlyOnBuildFailure categoryOf) event packageName error failedPlugins in
  (error ≠ None →
     (eligible = true ↔
        categoryOf event = AlwaysEligible ∨ categoryOf event = FailureOnly))
  ∧ (error = None → (eligible = true ↔ categoryOf event ≠ FailureOnly)).
Proof.
  intros Hout eligible. subst eligible.
  unfold shouldRunCommand, runsAlsoOnBuildFailure, runsOnlyOnBuildFailure.
  assert (includes failedPlugins packageName = false) as ->.
  { unfold includes. destruct packageName as [name|]; [|done].
    apply bool_decide_eq_false_2. by apply Hout. }
  split; intros Herr.
  - rewrite bool_decide_eq_true_2 by done.
    destruct (categoryOf event); split; intros; try done; auto.
    by destruct_or!.
  - rewrite bool_decide_eq_false_2 by (intros ?; done).
    destruct (categoryOf event); split; intros; done.
Qed.

End EligibilityFacts.

(** ** The dispatcher on sample commands *)

Section DispatchExamples.

Import Dispatch.

Lemma failed_plugin_never_runs_witness :
  "netlify-plugin-a" ∈ ["netlify-plugin-b"; "netlify-plugin-a"]
  ∧ shouldRunCommand (runsAlsoOnBuildFailure Sample.categoryOf)
      (runsOnlyOnBuildFailure Sample.categoryOf) "onEnd"
      (Some "netlify-plugin-a") (Some tt)
      ["netlify-plugin-b"; "netlify-plugin-a"] = false.
Proof.
  assert ("netlify-plugin-a" ∈ ["netlify-plugin-b"; "netlify-plugin-a"]) as Hin
    by repeat constructor.
  split; [exact Hin|].
  apply (failed_plugin_never_runs (BuildError := unit)), Hin.
Defined.

Lemma eligibility_by_category_witness :
  (shouldRunCommand (runsAlsoOnBuildFailure Sample.categoryOf)
     (runsOnlyOnBuildFailure Sample.categoryOf) "onError"
     (Some "netlify-plugin-a") (Some tt) ["netlify-plugin-b"] = true
   ↔ Sample.categoryOf "onError" = AlwaysEligible
     ∨ Sample.categoryOf "onError" = FailureOnly)
  ∧ (shouldRunCommand (runsAlsoOnBuildFailure Sample.categoryOf)
       (runsOnlyOnBuildFailure Sample.categoryOf) "onError"
       (Some "netlify-plugin-a") (None : option unit) ["netlify-plugin-b"] = true
     ↔ Sample.categoryOf "onError" ≠ FailureOnly).
Proof.
  assert (∀ name, Some "netlify-plugin-a" = Some name →
            name ∉ ["netlify-plugin-b"]) as Hout.
  { intros name [= <-]. by intros [=]%list_elem_of_singleton. }
  split.
  - apply (eligibility_by_category (BuildError := unit) Sample.categoryOf
             "onError" (Some "netlify-plugin-a") (Some tt) ["netlify-plugin-b"]
             Hout).
    discriminate.
  - apply (eligibility_by_category (BuildError := unit) Sample.categoryOf
             "onError" (Some "netlify-plugin-a") None ["netlify-plugin-b"]
             Hout).
    reflexivity.
Defined.

(** The command of a plugin that has not failed runs and reports position
    4 after position 3. *)
Lemma runCommand_newIndex_witness :
  Sample.runCommand (Sample.onBuildOf "netlify-plugin-a" []) tt
    = (Resolved {[ "newIndex" := VNumber 4 ]}, tt)
  ∧ ({[ "newIndex" := VNumber 4 ]} : gmap string (value unit)) !! "newIndex"
    = Some (VNumber (3 + 1)).
Proof.
  assert (Sample.runCommand (Sample.onBuildOf "netlify-plugin-a" []) tt
          = (Resolved {[ "newIndex" := VNumber 4 ]}, tt)) as Hrun
    by (vm_compute; reflexivity).
  split; [exact Hrun|].
  unfold Sample.runCommand in Hrun.
  exact (runCommand_newIndex _ _ _ _ _ _ _ _ _ _ _ _ _ _ Hrun).
Defined.

(** C1 fails on the code: the command of a plugin that has failed is
    skipped, and the call returns the empty object: no [newIndex] at all,
    so not [index + 1]. *)
Lemma runCommand_skipped_counterexample :
  let c := Sample.onBuildOf "netlify-plugin-a" ["netlify-plugin-a"] in
  (Sample.runCommand c tt).1 = Resolved ∅
  ∧ ¬ carriesNextIndex c (Sample.runCommand c tt).1.
Proof.
  intros c.
  assert ((Sample.runCommand c tt).1 = Resolved ∅) as Hrun
    by (vm_compute; reflexivity).
  split; [exact Hrun|].
  rewrite Hrun. intros (returned & [= <-] & Hidx).
  by rewrite lookup_empty in Hidx.
Qed.

End DispatchExamples.

(** * Further properties of the configuration updater *)

Section UpdateMore.

Import Update.

Context {Mutation Value Logs : Type}.

Variable applyMutations : gmap string Value → list Mutation → gmap string Value.
Variable ensureConfigPriority :
  gmap string Value → option string → option string → gmap string Value.
Variable parseOptionalConfig :
  option string → gmap string string → outcome (gmap string Value).
Variable mergeConfigs : list (gmap string Value) → gmap string Value.
Variable addConfigHeaders :
  gmap string Value → option string → Logs → gmap string string →
  outcome (gmap string Value).
Variable addConfigRedirects :
  gmap string Value → option string → Logs → gmap string string →
  outcome (gmap string Value).
Variable simplifyConfig : gmap string Value → gmap string Value.
Variable serializeToml : gmap string Value → string.

Local Abbreviation update :=
  (updateConfig applyMutations ensureConfigPriority parseOptionalConfig
     mergeConfigs addConfigHeaders addConfigRedirects simplifyConfig
     serializeToml).

(** What the write of the configuration file and the two deletions leave at
    a path that is none of the live paths. *)
Lemma persist_frame (o : @options Logs) (simplified inline : gmap string Value)
    (k : string) (d : disk) :
  (∀ s, livePath o s ≠ Some k) →
  files (deleteSideFile (redirectsPath o) "redirects" inline
           (deleteSideFile (headersPath o) "headers" inline
              (saveConfig serializeToml (configPath o) simplified d).2).2).2 !! k
  = files d !! k.
Proof.
  intros Hk.
  pose proof (Hk ConfigSlot) as Hc. pose proof (Hk HeadersSlot) as Hh.
  pose proof (Hk RedirectsSlot) as Hr. cbn [livePath] in *.
  match goal with
  | |- context [deleteSideFile ?a ?b ?c ?x] =>
      destruct (deleteSideFile_run a b c x) as [_ ->]
  end.
  assert (∀ (path : option string) prop (f : gmap string string),
            path ≠ Some k →
            match inline !! prop, path with
            | Some _, Some q => delete q f
            | _, _ => f
            end !! k = f !! k) as Hskip.
  { intros path prop f Hne. destruct (inline !! prop); [|done].
    destruct path as [q|]; [|done]. rewrite lookup_delete_ne; congruence. }
  rewrite Hskip by done.
  match goal with
  | |- context [deleteSideFile ?a ?b ?c ?x] =>
      destruct (deleteSideFile_run a b c x) as [_ ->]
  end.
  rewrite Hskip by done.
  unfold saveConfig. by rewrite pWriteFile_frame.
Qed.

(** After a resolved [updateConfig] each backup location holds what the
    live file of its slot held before the call. *)
Lemma updateConfig_backups (configMutations : list Mutation) (o : @options Logs)
    (d d' : disk) (s : slot) :
  configMutations ≠ [] →
  liveOutsideBackups o = true →
  update configMutations o d = (Resolved tt, d') →
  files d' !! backupPath (buildDir o) s = content d (livePath o s).
Proof.
  intros Hne Hout Hrun.
  destruct (updateConfig_state applyMutations ensureConfigPriority
              parseOptionalConfig mergeConfigs addConfigHeaders
              addConfigRedirects simplifyConfig serializeToml
              configMutations o d Hne) as [cfg Hstate].
  { by rewrite Hrun. }
  rewrite Hrun in Hstate. cbn [snd] in Hstate. rewrite Hstate.
  rewrite persist_frame by (intros s'; by apply liveOutsideBackups_ne).
  by apply backupConfig_captures.
Qed.

(** X1. The whole cycle: after a resolved [updateConfig], [restoreConfig]
    resolves and gives every live path back what it held before the update,
    content or nothing; so the written configuration file is reverted and a
    deleted side file is back.  No live path is a backup location. *)
Theorem updateConfig_then_restoreConfig (configMutations : list Mutation)
    (o : @options Logs) (d d' : disk) (s : slot) :
  configMutations ≠ [] →
  liveOutsideBackups o = true →
  update configMutations o d = (Resolved tt, d') →
  (restoreConfig configMutations o d').1 = Resolved tt
  ∧ content (restoreConfig configMutations o d').2 (livePath o s)
    = content d (livePath o s).
Proof.
  intros Hne Hout Hrun.
  pose proof (λ s', updateConfig_backups configMutations o d d' s' Hne Hout Hrun)
    as Hb.
  split.
  - rewrite restoreConfig_outcome by done. cbn [map].
    rewrite !Hb. cbn [livePath]. unfold content.
    destruct (configPath o) as [c|], (headersPath o) as [h|],
      (redirectsPath o) as [r|]; cbn [mbind option_bind];
      try destruct (files d !! c); try destruct (files d !! h);
      try destruct (files d !! r); reflexivity.
  - unfold content at 1.
    destruct (livePath o s) as [p|] eqn:Hp; [cbn [mbind option_bind]|done].
    rewrite restoreConfig_lookup by done. rewrite !Hb. cbn [livePath].
    assert (∃ s', livePath o s' = Some p) as Hlive by eauto. clear Hp.
    repeat case_decide;
      repeat match goal with H : _ = Some p |- _ => rewrite H; clear H end;
      try done.
    destruct Hlive as [[] ?]; cbn [livePath] in *; congruence.
Qed.

(** X2. A resolved [updateConfig] leaves in the configuration file the
    serialization of the simplified configuration that comes out of the
    chain parse, merge with the inline configuration, headers, redirects,
    each reader looking at the disk as it was before the call.  The live
    paths are different files. *)
Theorem updateConfig_persists (configMutations : list Mutation)
    (o : @options Logs) (d d' : disk) :
  let inline :=
    ensureConfigPriority (applyMutations ∅ configMutations) (context o) (branch o) in
  configMutations ≠ [] →
  liveDistinct o = true →
  update configMutations o d = (Resolved tt, d') →
  ∃ config withHeaders final,
    parseOptionalConfig (configPath o) (files d) = Resolved config
    ∧ addConfigHeaders (mergeConfigs [config; inline]) (headersPath o) (logs o)
        (files d) = Resolved withHeaders
    ∧ addConfigRedirects withHeaders (redirectsPath o) (logs o) (files d)
      = Resolved final
    ∧ content d' (configPath o) = Some (serializeToml (simplifyConfig final)).
Proof.
  intros inline Hne Hdis.
  destruct configMutations as [|m ms]; [done|].
  rewrite updateConfig_steps. fold inline.
  destruct (parseOptionalConfig _ _) as [config|e] eqn:E1; [|discriminate].
  destruct (addConfigHeaders _ _ _ _) as [withHeaders|e] eqn:E2; [|discriminate].
  destruct (addConfigRedirects _ _ _ _) as [final|e] eqn:E3; [|discriminate].
  intros Hrun. exists config, withHeaders, final. do 3 (split; [done|]).
  pose proof (f_equal snd Hrun) as Hstate. cbn [snd] in Hstate.
  rewrite promise_all_3_state in Hstate.
  pose proof (f_equal fst Hrun) as Hout. cbn [fst] in Hout.
  rewrite promise_all_3 in Hout.
  unfold saveConfig in Hout, Hstate.
  destruct (configPath o) as [c|] eqn:Hc.
  2:{ unfold pWriteFile in Hout.
      repeat match type of Hout with
             | context [let '(_, _) := ?x in _] => destruct x as [[] ?]
             end; discriminate. }
  clear Hout. subst d'. unfold content. cbn [mbind option_bind].
  unfold liveDistinct, distinct in Hdis. rewrite Hc in Hdis.
  rewrite !andb_true_iff in Hdis. destruct Hdis as [[D1 D2] D3].
  match goal with
  | |- context [deleteSideFile ?a ?b ?c ?x] =>
      destruct (deleteSideFile_run a b c x) as [_ ->]
  end.
  assert (∀ (path : option string) prop (f : gmap string string),
            distinct (Some c) path = true →
            match inline !! prop, path with
            | Some _, Some q => delete q f
            | _, _ => f
            end !! c = f !! c) as Hskip.
  { intros path prop f Hne'. destruct (inline !! prop); [|done].
    destruct path as [q|]; [|done]. cbn in Hne'.
    apply bool_decide_eq_true in Hne'. rewrite lookup_delete_ne; congruence. }
  rewrite Hskip by done.
  match goal with
  | |- context [deleteSideFile ?a ?b ?c ?x] =>
      destruct (deleteSideFile_run a b c x) as [_ ->]
  end.
  rewrite Hskip by done.
  unfold pWriteFile. cbn [snd files set_files]. apply lookup_insert_eq.
Qed.

(** X3. When one of the three readers rejects, [updateConfig] rejects with
    the reader's error and has not touched the disk: no backup is taken,
    nothing is written or deleted. *)
Theorem updateConfig_reader_rejects (configMutations : list Mutation)
    (o : @options Logs) (d : disk) (e : error) :
  let inline :=
    ensureConfigPriority (applyMutations ∅ configMutations) (context o) (branch o) in
  configMutations ≠ [] →
  parseOptionalConfig (configPath o) (files d) = Rejected e
  ∨ (∃ config,
       parseOptionalConfig (configPath o) (files d) = Resolved config
       ∧ (addConfigHeaders (mergeConfigs [config; inline]) (headersPath o)
            (logs o) (files d) = Rejected e
          ∨ ∃ withHeaders,
              addConfigHeaders (mergeConfigs [config; inline]) (headersPath o)
                (logs o) (files d) = Resolved withHeaders
              ∧ addConfigRedirects withHeaders (redirectsPath o) (logs o)
                  (files d) = Rejected e)) →
  update configMutations o d = (Rejected e, d).
Proof.
  intros inline Hne Hrej.
  destruct configMutations as [|m ms]; [done|].
  rewrite updateConfig_steps. fold inline.
  destruct Hrej as [-> | (config & -> & [-> | (withHeaders & -> & ->)])];
    reflexivity.
Qed.



(** X6. [restoreConfig] changes no path other than the live paths; in
    particular it leaves the backups where they are whenever no live path
    is a backup location. *)
Theorem restoreConfig_touches_live_paths_only (configMutations : list Mutation)
    (o : @options Logs) (d : disk) (k : string) :
  (∀ s, livePath o s ≠ Some k) →
  files (restoreConfig configMutations o d).2 !! k = files d !! k.
Proof.
  intros Hk. destruct configMutations as [|m ms]; [done|].
  rewrite restoreConfig_files by done.
  pose proof (Hk ConfigSlot) as Hc. pose proof (Hk HeadersSlot) as Hh.
  pose proof (Hk RedirectsSlot) as Hr. cbn [livePath] in *.
  assert (∀ src (dest : option string) (f : gmap string string),
            dest ≠ Some k →
            match dest with
            | Some q => partial_alter (λ _, f !! src) q f
            | None => f
            end !! k = f !! k) as Hput.
  { intros src dest f Hne. destruct dest as [q|]; [|done].
    rewrite lookup_partial_alter_ne; [done | congruence]. }
  by rewrite !Hput.
Qed.

(** X7. With a non-empty log, [restoreConfig] rejects exactly when some slot
    has a backup but no live path to copy it to; a missing backup or a
    missing live file never makes it reject.  No live path is a backup
    location. *)
Theorem restoreConfig_resolves_iff (configMutations : list Mutation)
    (o : @options Logs) (d : disk) :
  configMutations ≠ [] →
  liveOutsideBackups o = true →
  (restoreConfig configMutations o d).1 = Resolved tt
  ↔ ∀ s, is_Some (files d !! backupPath (buildDir o) s) → is_Some (livePath o s).
Proof.
  intros Hne Hout. rewrite restoreConfig_outcome by done. cbn [map].
  split.
  - intros Hres s [c Hc].
    destruct (livePath o s) as [p|] eqn:Hp; [eauto|].
    exfalso. cbn [livePath] in Hres.
    destruct s; cbn [livePath] in Hp; rewrite Hp, Hc in Hres;
      repeat match type of Hres with
             | context [files d !! ?b] => destruct (files d !! b)
             end;
      destruct (configPath o), (headersPath o), (redirectsPath o);
      discriminate.
  - intros Hall.
    assert (∀ s, match files d !! backupPath (buildDir o) s, livePath o s with
                 | Some _, None =>
                     Rejected (Failure "`source` and `destination` required")
                 | _, _ => Resolved tt
                 end = (Resolved tt : outcome unit)) as Hslot.
    { intros s. specialize (Hall s).
      destruct (files d !! backupPath (buildDir o) s); [|done].
      destruct (livePath o s); [done|].
      destruct Hall as [? [=]]. eauto. }
    by rewrite !Hslot.
Qed.

End UpdateMore.

(** * Further properties of the dispatcher *)

Section DispatchMore.

Import Dispatch.

Context {World BuildError CoreCommand Constants Passed Raw Fired Opaque : Type}.

Local Abbreviation command' :=
  (@command BuildError CoreCommand Constants Passed).

Variable alsoOnFailure onlyOnFailure : string → bool.
Variable getConstants : Constants → string → M World Constants.
Variable logCommand : command' → M World unit.
Variable fireCoreCommand : command' → Constants → M World Raw.
Variable fireBuildCommand : command' → M World Raw.
Variable firePluginCommand : command' → Constants → M World Raw.
Variable measureDuration :
  (command' * Constants → M World Raw) → timer →
  command' * Constants → M World Fired.
Variable normalizeTimerName : option string → string.
Variable getCommandReturn :
  command' → Fired → M World (gmap string (value Opaque)).

Local Abbreviation eligible c :=
  (shouldRunCommand alsoOnFailure onlyOnFailure
     (event c) (packageName c) (error c) (failedPlugins c)).

Local Abbreviation fire c :=
  (getFireCommand fireCoreCommand fireBuildCommand firePluginCommand
     measureDuration normalizeTimerName
     (packageName c) (buildCommand c) (coreCommandId c) (event c)).

Local Abbreviation run :=
  (runCommand alsoOnFailure onlyOnFailure getConstants logCommand
     fireCoreCommand fireBuildCommand firePluginCommand measureDuration
     normalizeTimerName getCommandReturn).

(** X8. A command that is not eligible is skipped altogether: once the
    constants are computed the call resolves with the empty object, and the
    world is as [getConstants] left it: nothing is logged, no executor and
    no post-processing runs. *)
Theorem runCommand_skips_everything (c : command') (w w' : World)
    (constantsA : Constants) :
  getConstants (constants c) (buildDir c) w = (Resolved constantsA, w') →
  shouldRunCommand alsoOnFailure onlyOnFailure
    (event c) (packageName c) (error c) (failedPlugins c) = false →
  run c w = (Resolved ∅, w').
Proof.
  intros Hconst Hno. unfold runCommand, bind. rewrite Hconst, Hno. reflexivity.
Qed.

(** X9. What an eligible command returns is what [getCommandReturn] made of
    the fired command, with [newIndex] set on top: every other key is kept,
    a [newIndex] of the post-processing is overwritten, and the world is the
    one the post-processing left. *)
Theorem runCommand_returns_post_processed (c : command') (w w' : World)
    (returned : gmap string (value Opaque)) :
  run c w = (Resolved returned, w') →
  eligible c = true →
  ∃ constantsA w1 w2 fired w3 newValues,
    getConstants (constants c) (buildDir c) w = (Resolved constantsA, w1)
    ∧ logCommand c w1 = (Resolved tt, w2)
    ∧ fire c (c, constantsA) w2 = (Resolved fired, w3)
    ∧ getCommandReturn c fired w3 = (Resolved newValues, w')
    ∧ returned = <["newIndex" := VNumber (index c + 1)]> newValues
    ∧ ∀ key, key ≠ "newIndex" → returned !! key = newValues !! key.
Proof.
  unfold runCommand, bind. intros Hrun Hyes. rewrite Hyes in Hrun.
  cbn [negb] in Hrun.
  destruct (getConstants _ _ w) as [[constantsA|e] w1] eqn:Hconst;
    [|discriminate].
  destruct (logCommand c w1) as [[[]|e] w2] eqn:Hlog; [|discriminate].
  destruct (fire c (c, constantsA) w2) as [[fired|e] w3] eqn:Hfire;
    [|discriminate].
  destruct (getCommandReturn c fired w3) as [[newValues|e] w4] eqn:Hret;
    [|discriminate].
  unfold ret in Hrun. injection Hrun as <- <-.
  exists constantsA, w1, w2, fired, w3, newValues.
  do 5 (split; [done|]).
  intros key Hkey. by rewrite lookup_insert_ne.
Qed.

(** X10. The dispatcher raises nothing of its own: when a call rejects, one
    of its collaborators rejected with that very error and left that very
    world, and nothing ran after it.  For a command that is not eligible
    only [getConstants] can reject. *)
Theorem runCommand_rejects_only_through_collaborators (c : command')
    (w w' : World) (e : Async.error) :
  run c w = (Rejected e, w') →
  getConstants (constants c) (buildDir c) w = (Rejected e, w')
  ∨ (eligible c = true
     ∧ ∃ constantsA w1,
         getConstants (constants c) (buildDir c) w = (Resolved constantsA, w1)
         ∧ (logCommand c w1 = (Rejected e, w')
            ∨ ∃ w2,
                logCommand c w1 = (Resolved tt, w2)
                ∧ (fire c (c, constantsA) w2 = (Rejected e, w')
                   ∨ ∃ fired w3,
                       fire c (c, constantsA) w2 = (Resolved fired, w3)
                       ∧ getCommandReturn c fired w3 = (Rejected e, w')))).
Proof.
  unfold runCommand, bind. intros Hrun.
  destruct (getConstants _ _ w) as [[constantsA|e1] w1] eqn:Hconst;
    [|injection Hrun as <- <-; by left].
  right. destruct (eligible c); cbn [negb] in Hrun; [|discriminate].
  split; [done|]. exists constantsA, w1. split; [done|].
  destruct (logCommand c w1) as [[[]|e2] w2] eqn:Hlog;
    [|injection Hrun as <- <-; by left].
  right. exists w2. split; [done|].
  destruct (fire c (c, constantsA) w2) as [[fired|e3] w3] eqn:Hfire;
    [|injection Hrun as <- <-; by left].
  right. exists fired, w3. split; [done|].
  destruct (getCommandReturn c fired w3) as [[newValues|e4] w4];
    [discriminate|]. by injection Hrun as <- <-.
Qed.

(** X11. More failed plugins never make a command eligible: a command that
    is eligible with a set of failed plugins is eligible with any smaller
    one.  And a command without a package name, that is a core or a build
    command, is not affected by the failed plugins at all. *)
Theorem shouldRunCommand_failed_plugins (event : string)
    (packageName : option string) (error : option BuildError)
    (failedPlugins failedPlugins' : list string) :
  (failedPlugins ⊆ failedPlugins' →
   shouldRunCommand alsoOnFailure onlyOnFailure event packageName error
     failedPlugins' = true →
   shouldRunCommand alsoOnFailure onlyOnFailure event packageName error
     failedPlugins = true)
  ∧ shouldRunCommand alsoOnFailure onlyOnFailure event None error failedPlugins
    = shouldRunCommand alsoOnFailure onlyOnFailure event None error [].
Proof.
  split; [|reflexivity].
  intros Hsub. unfold shouldRunCommand, includes.
  destruct packageName as [name|]; [|done].
  destruct (bool_decide (name ∈ failedPlugins')) eqn:E'; [discriminate|].
  apply bool_decide_eq_false in E'.
  rewrite (bool_decide_eq_false_2 (name ∈ failedPlugins)); [done|].
  intros Hin. by apply E', Hsub.
Qed.

End DispatchMore.

(** * Further properties of the [_redirects] writer *)

Section StringFacts.

Lemma append_assoc (a b c : string) : (a +:+ b) +:+ c = a +:+ b +:+ c.
Proof.
  induction a as [|x a IH]; [done|].
  change (String x (a +:+ b) +:+ c = String x (a +:+ b +:+ c)).
  change (String x ((a +:+ b) +:+ c) = String x (a +:+ b +:+ c)).
  by rewrite IH.
Qed.

Lemma prefix_append (s rest : string) : String.prefix s (s +:+ rest) = true.
Proof.
  induction s as [|c s IH].
  - by destruct rest.
  - change (String.prefix (String c s) (String c s +:+ rest))
      with (if Ascii.ascii_dec c c then String.prefix s (s +:+ rest) else false).
    destruct (Ascii.ascii_dec c c); [done | congruence].
Qed.

(** A string that occurs in another is found by [indexOf]. *)
Lemma indexOf_occurs (before needle after : string) :
  (0 ≤ Redirects.indexOf (before +:+ needle +:+ after) needle)%Z.
Proof.
  unfold Redirects.indexOf.
  assert (∃ i, String.index 0 needle (before +:+ needle +:+ after) = Some i)
    as [i ->]; [|lia].
  induction before as [|c before [i IH]].
  - change ("" +:+ needle +:+ after) with (needle +:+ after).
    destruct (needle +:+ after) as [|c s] eqn:E.
    + destruct needle; [by exists 0 | discriminate].
    + exists 0.
      change (String.index 0 needle (String c s))
        with (if String.prefix needle (String c s) then Some 0
              else match String.index 0 needle s with
                   | Some n => Some (S n)
                   | None => None
                   end).
      by rewrite <- E, prefix_append.
  - change (String.index 0 needle (String c before +:+ needle +:+ after))
      with (if String.prefix needle (String c (before +:+ needle +:+ after))
            then Some 0
            else match String.index 0 needle (before +:+ needle +:+ after) with
                 | Some n => Some (S n)
                 | None => None
                 end).
    rewrite IH.
    destruct (String.prefix needle (String c (before +:+ needle +:+ after)));
      eauto.
Qed.

End StringFacts.

Section RedirectsMore.

Import Redirects.

Variable path_join : string → string → string.

Local Abbreviation write := (writeRedirectsFile path_join).

(** X12. Whatever a run of the writer did, write afresh or append to
    user-authored rules, the file then carries the header comment, and so
    the next run replaces the whole file by its own content: the rules the
    first run appended to are gone after the second. *)
Theorem writeRedirectsFile_second_run_overwrites (buildDir : string)
    (redirects1 redirects2 : list redirect) (rewrites1 rewrites2 : list rewrite_rule)
    (lines1 lines2 : list string) (d : disk) :
  let FILE_PATH := path_join buildDir "_redirects" in
  redirects1 ≠ [] ∨ rewrites1 ≠ [] →
  redirects2 ≠ [] ∨ rewrites2 ≠ [] →
  formatRedirects redirects1 = Resolved lines1 →
  formatRedirects redirects2 = Resolved lines2 →
  let first := write buildDir redirects1 rewrites1 d in
  let second := write buildDir redirects2 rewrites2 first.2 in
  second.1 = Resolved Undefined
  ∧ files second.2 =
      <[FILE_PATH :=
          HEADER_COMMENT +:+ newline +:+ newline
            +:+ join newline (lines2 ++ map formatRewrite rewrites2)%list]>
        (files d).
Proof.
  intros FILE_PATH Hrules1 Hrules2 Hlines1 Hlines2 first second.
  subst first second.
  destruct (writeRedirectsFile_run path_join buildDir redirects1 rewrites1 lines1
              d Hrules1 Hlines1) as [_ Hfirst].
  destruct (writeRedirectsFile_run path_join buildDir redirects2 rewrites2 lines2
              (write buildDir redirects1 rewrites1 d).2 Hrules2 Hlines2)
    as [Hres Hsecond].
  split; [done|]. rewrite Hsecond. fold FILE_PATH in Hfirst |- *.
  set (data1 := HEADER_COMMENT +:+ newline +:+ newline
                  +:+ join newline (lines1 ++ map formatRewrite rewrites1)%list)
    in *.
  assert (∃ marked,
            files (write buildDir redirects1 rewrites1 d).2
            = <[FILE_PATH := marked]> (files d)
            ∧ (0 ≤ indexOf marked HEADER_COMMENT)%Z) as (marked & -> & Hmarked).
  { rewrite Hfirst.
    destruct (match files d !! FILE_PATH with
              | Some fileContents => (indexOf fileContents HEADER_COMMENT <? 0)%Z
              | None => false
              end).
    - eexists. split; [done|].
      change (default "" (files d !! FILE_PATH) +:+ newline +:+ newline +:+ data1)
        with (default "" (files d !! FILE_PATH)
                +:+ newline +:+ newline +:+ HEADER_COMMENT
                +:+ (newline +:+ newline
                       +:+ join newline (lines1 ++ map formatRewrite rewrites1)%list)).
      replace (default "" (files d !! FILE_PATH) +:+ newline +:+ newline
                 +:+ HEADER_COMMENT
                 +:+ newline +:+ newline
                 +:+ join newline (lines1 ++ map formatRewrite rewrites1)%list)
        with ((default "" (files d !! FILE_PATH) +:+ newline +:+ newline)
                +:+ HEADER_COMMENT
                +:+ (newline +:+ newline
                       +:+ join newline (lines1 ++ map formatRewrite rewrites1)%list))
        by (by rewrite !append_assoc).
      apply indexOf_occurs.
    - eexists. split; [done|]. apply (indexOf_occurs "" HEADER_COMMENT). }
  rewrite lookup_insert_eq.
  apply Z.ltb_ge in Hmarked. rewrite Hmarked.
  by rewrite insert_insert_eq.
Qed.

(** X13. A file that already carries the header comment is taken for the
    result of an earlier build and replaced, never appended to. *)
Theorem writeRedirectsFile_replaces_marked_file (buildDir : string)
    (redirects : list redirect) (rewrites : list rewrite_rule)
    (lines : list string) (fileContents : string) (d : disk) :
  let FILE_PATH := path_join buildDir "_redirects" in
  redirects ≠ [] ∨ rewrites ≠ [] →
  formatRedirects redirects = Resolved lines →
  files d !! FILE_PATH = Some fileContents →
  (0 ≤ indexOf fileContents HEADER_COMMENT)%Z →
  files (write buildDir redirects rewrites d).2 =
    <[FILE_PATH :=
        HEADER_COMMENT +:+ newline +:+ newline
          +:+ join newline (lines ++ map formatRewrite rewrites)%list]>
      (files d).
Proof.
  intros FILE_PATH Hrules Hlines Hold Hmarked.
  destruct (writeRedirectsFile_run path_join buildDir redirects rewrites lines
              d Hrules Hlines) as [_ ->].
  fold FILE_PATH. rewrite Hold.
  apply Z.ltb_ge in Hmarked. by rewrite Hmarked.
Qed.

Lemma formatRedirects_rejects (redirects : list redirect) (r : redirect)
    (e : error) :
  r ∈ redirects → formatRedirect r = Rejected e →
  ∃ e', formatRedirects redirects = Rejected e'.
Proof.
  intros Hin Hr. induction Hin as [r rs | r r' rs Hin IH]; cbn.
  - rewrite Hr. eauto.
  - destruct (formatRedirect r'); [|eauto].
    destruct (IH Hr) as [e' ->]. eauto.
Qed.

(** X14. A redirect that is forced and whose status code is set but is not
    a string (a number, say) cannot be formatted, since only a string has
    [concat]: the writer rejects, and it does so before it has looked at or
    changed the disk. *)
Theorem writeRedirectsFile_rejects_forced_number (buildDir : string)
    (redirects : list redirect) (rewrites : list rewrite_rule) (r : redirect)
    (d : disk) :
  r ∈ redirects →
  truthy (force r) = true →
  truthy (statusCode r) = true →
  (∀ s, statusCode r ≠ JString s) →
  ∃ e, write buildDir redirects rewrites d = (Rejected e, d).
Proof.
  intros Hin Hforce Hcode Hnum.
  assert (∃ e, formatRedirect r = Rejected e) as [e Hr].
  { unfold formatRedirect. rewrite Hforce, Hcode.
    destruct (statusCode r) as [| |b|n|s]; cbn; eauto.
    by destruct (Hnum s). }
  destruct (formatRedirects_rejects redirects r e Hin Hr) as [e' Hrej].
  exists e'. unfold writeRedirectsFile.
  assert ((length redirects =? 0)%nat = false) as ->.
  { destruct redirects; [by apply elem_of_nil in Hin | done]. }
  cbn [andb]. rewrite Hrej. reflexivity.
Qed.

(** X15. A key of a redirect whose value is a string with a space in it
    leaves no trace in the line: the line is the one the redirect would
    have without that key. *)
Theorem formatRedirect_drops_spaced_value (r : redirect)
    (before after : list (string * js)) (key v : string) :
  (0 ≤ indexOf v " ")%Z →
  rest r = (before ++ (key, JString v) :: after)%list →
  formatRedirect r =
    formatRedirect
      (Redirect (fromPath r) (isPermanent r) (redirectInBrowser r) (force r)
         (toPath r) (statusCode r) (before ++ after)%list).
Proof.
  intros Hspace Hrest. unfold formatRedirect. cbn [fromPath isPermanent force
    toPath statusCode rest]. rewrite Hrest.
  assert (restPieces (before ++ (key, JString v) :: after)
          = restPieces (before ++ after)) as ->; [|done].
  unfold restPieces. rewrite !flat_map_app. cbn [flat_map].
  apply Z.geb_le in Hspace. by rewrite Hspace.
Qed.

End RedirectsMore.

(** * The functions plugin *)

Section PluginMore.

Import Redirects Functions.

Variable path_join : string → string → string.
Variable path_resolve : string → string.
Variable path_basename : string → string.
Variable cwd : string.
Variable zipFunction : string → string → M disk unit.
Variable matchesWrapper : string → outcome bool.

Local Abbreviation process :=
  (processFunction path_basename zipFunction matchesWrapper).
Local Abbreviation handlerOf := (generateHandler path_basename).

(** X16. The name of the temporary copy: a path that ends in [.js] gets
    [-temp.js] instead of that ending, and any other path is returned as
    it is, so that then the temporary copy is the file itself. *)
Theorem tempFileName_spec (stem filePath : string) :
  tempFileName (stem +:+ ".js") = stem +:+ "-temp.js"
  ∧ ((∀ stem', filePath ≠ stem' +:+ ".js") → tempFileName filePath = filePath).
Proof.
  split.
  - induction stem as [|c stem IH]; [reflexivity|].
    change (tempFileName (String c (stem +:+ ".js")) = String c (stem +:+ "-temp.js")).
    cbn [tempFileName].
    assert (String.eqb (String c (stem +:+ ".js")) ".js" = false) as ->.
    { apply String.eqb_neq. intros E.
      destruct stem as [|x [|y [|z stem]]]; discriminate E. }
    by rewrite IH.
  - induction filePath as [|c rest IH]; intros Hno; [reflexivity|].
    cbn [tempFileName].
    destruct (String.eqb (String c rest) ".js") eqn:E.
    + apply String.eqb_eq in E. by destruct (Hno "").
    + rewrite IH; [done|]. intros stem' ->. by apply (Hno (String c stem')).
Qed.

(** X17. Every generated handler carries the words the clean-up after a
    failed build looks for, whatever the function is called and wherever it
    lives. *)
Theorem generateHandler_is_marked (f : func) :
  indexOf (handlerOf f) "Netlify function wrapper" = 4%Z.
Proof. reflexivity. Qed.

Lemma fold_addFunction (entries : list (string * Conf.functionData)) (acc : data) :
  let folded := fold_left (addFunction path_resolve) entries acc in
  rewrites folded =
    (rewrites acc
       ++ map (λ entry : string * Conf.functionData,
                 Rewrite (Conf.path entry.2)
                   (JString ("/.netlify/functions/" +:+ entry.1))) entries)%list
  ∧ functions folded =
      (functions acc
         ++ map (λ entry : string * Conf.functionData,
                   Func entry.1 (Conf.handler entry.2)
                     (path_resolve (Conf.handler entry.2))
                     (Conf.method entry.2)) entries)%list
  ∧ redirects folded = redirects acc.
Proof.
  revert acc. induction entries as [|[n fd] entries IH]; intros acc.
  - cbn. by rewrite !app_nil_r.
  - cbn [fold_left map]. destruct (IH (addFunction path_resolve acc (n, fd)))
      as (-> & -> & ->).
    cbn. by rewrite <- !app_assoc.
Qed.

Lemma collect_fold (entries : list (string * Conf.functionData)) :
  rewrites (collect path_resolve entries) =
    map (λ entry : string * Conf.functionData,
           Rewrite (Conf.path entry.2)
             (JString ("/.netlify/functions/" +:+ entry.1))) entries
  ∧ functions (collect path_resolve entries) =
      map (λ entry : string * Conf.functionData,
             Func entry.1 (Conf.handler entry.2)
               (path_resolve (Conf.handler entry.2)) (Conf.method entry.2))
        entries
  ∧ redirects (collect path_resolve entries) = [].
Proof. apply (fold_addFunction entries (Data [] [] [])). Qed.

(** X18. What the plugin collects from its configuration: one rewrite per
    function, in key order, from the path of the function to
    [/.netlify/functions/<name>]; one function to wrap per entry, with its
    handler file resolved; and never a redirect. *)
Theorem collect_spec (entries : list (string * Conf.functionData)) :
  rewrites (collect path_resolve entries) =
    map (λ entry : string * Conf.functionData,
           Rewrite (Conf.path entry.2)
             (JString ("/.netlify/functions/" +:+ entry.1))) entries
  ∧ functions (collect path_resolve entries) =
      map (λ entry : string * Conf.functionData,
             Func entry.1 (Conf.handler entry.2)
               (path_resolve (Conf.handler entry.2)) (Conf.method entry.2))
        entries
  ∧ redirects (collect path_resolve entries) = [].
Proof. exact (collect_fold entries). Qed.

End PluginMore.

Section PluginRun.

Import Redirects Functions.

Variable path_join : string → string → string.
Variable path_resolve : string → string.
Variable path_basename : string → string.
Variable cwd : string.
Variable zipFunction : string → string → M disk unit.
Variable matchesWrapper : string → outcome bool.

Local Abbreviation process :=
  (processFunction path_basename zipFunction matchesWrapper).
Local Abbreviation handlerOf := (generateHandler path_basename).
Local Abbreviation build :=
  (postbuild path_join path_resolve path_basename cwd zipFunction matchesWrapper).

(** [processFunction] when no temporary copy is lying around and the
    function file is there: the disk the bundler is given, and what is done
    with the disk it leaves. *)
Lemma processFunction_steps (f : func) (destFolder source : string) (d : disk) :
  let tempPath := tempFileName (path f) in
  files d !! tempPath = None →
  files d !! path f = Some source →
  ∃ wrapped : disk,
    files wrapped = <[path f := handlerOf f]> (<[tempPath := source]> (files d))
    ∧ process f destFolder d =
        match zipFunction (path f) destFolder wrapped with
        | (Rejected e, zipped) => (Rejected e, zipped)
        | (Resolved _, zipped) =>
            (fs_copy tempPath (path f) ;;;
             fs_unlink tempPath ;;;
             ret (handlerOf f)) zipped
        end.
Proof.
  intros tempPath Htemp Hsource.
  unfold processFunction. fold tempPath.
  unfold bind at 1. unfold fs_exists, pathExists, is_file, content.
  cbn [mbind option_bind]. rewrite Htemp.
  rewrite bool_decide_eq_false_2 by (intros [? ?]; congruence).
  unfold bind at 1, ret at 1.
  unfold bind at 1, fs_copy at 1, cpFile. cbn [files record]. rewrite Hsource.
  unfold bind at 1, fs_writeFile, pWriteFile.
  unfold bind at 1, packageFunction, bind at 1, fs_ensureDir, makeDir.
  eexists. split; [|reflexivity]. reflexivity.
Qed.

(** X19. Wrapping a function on a clean tree: with the function file in
    place, no temporary copy left from an earlier build and a bundler that
    resolves and leaves the temporary copy alone, [processFunction]
    resolves with the generated handler; the bundler is run on a disk where
    the function file holds that handler; and afterwards the function file
    holds its source again and the temporary copy is gone. *)
Theorem processFunction_restores_source (f : func) (destFolder source : string)
    (d : disk) :
  let tempPath := tempFileName (path f) in
  tempPath ≠ path f →
  files d !! tempPath = None →
  files d !! path f = Some source →
  (∀ x, (zipFunction (path f) destFolder x).1 = Resolved tt
        ∧ files (zipFunction (path f) destFolder x).2 !! tempPath
          = files x !! tempPath) →
  ∃ wrapped : disk,
    files wrapped !! path f = Some (handlerOf f)
    ∧ (process f destFolder d).1 = Resolved (handlerOf f)
    ∧ files (process f destFolder d).2 =
        delete tempPath
          (<[path f := source]> (files (zipFunction (path f) destFolder wrapped).2))
    ∧ files (process f destFolder d).2 !! path f = Some source
    ∧ files (process f destFolder d).2 !! tempPath = None.
Proof.
  intros tempPath Hne Htemp Hsource Hzip.
  destruct (processFunction_steps f destFolder source d Htemp Hsource)
    as (wrapped & Hwrapped & ->).
  exists wrapped. split; [by rewrite Hwrapped, lookup_insert_eq|].
  destruct (Hzip wrapped) as [Hres Hkeep]. fold tempPath in Hkeep |- *.
  destruct (zipFunction (path f) destFolder wrapped) as [[[]|e] zipped];
    [|discriminate]. cbn [fst snd] in *.
  assert (files zipped !! tempPath = Some source) as Hz.
  { rewrite Hkeep, Hwrapped, lookup_insert_ne, lookup_insert_eq; done. }
  unfold bind, fs_copy, cpFile, fs_unlink, pUnlink, ret.
  cbn [files record set_files]. rewrite Hz.
  cbn [files record set_files]. rewrite lookup_insert_ne, Hz by done.
  cbn [fst snd files set_files].
  repeat split.
  - rewrite lookup_delete_ne, lookup_insert_eq; done.
  - apply lookup_delete_eq.
Qed.

(** X20. A function whose file is missing, with no temporary copy either:
    [processFunction] rejects at its first copy with the missing file, and
    no file has changed. *)
Theorem processFunction_missing_source (f : func) (destFolder : string) (d : disk) :
  files d !! tempFileName (path f) = None →
  files d !! path f = None →
  (process f destFolder d).1 = Rejected (ENOENT (path f))
  ∧ files (process f destFolder d).2 = files d.
Proof.
  intros Htemp Hsource.
  unfold processFunction, bind, fs_exists, pathExists, is_file, content, ret,
    fs_copy, cpFile.
  cbn [mbind option_bind files record]. rewrite Htemp.
  rewrite bool_decide_eq_false_2 by (intros [? ?]; congruence).
  cbn [files record]. rewrite Hsource. done.
Qed.

(** The last step of [postbuild] cannot reject: the plugin never hands a
    redirect to the writer. *)
Lemma writeRewrites_resolves (buildFolder : string) (rewrites : list rewrite_rule)
    (d : disk) :
  ∃ r, (writeRedirectsFile path_join buildFolder [] rewrites d).1 = Resolved r.
Proof.
  destruct rewrites as [|rw rewrites]; [by exists Null|].
  destruct (writeRedirectsFile_run path_join buildFolder [] (rw :: rewrites) [] d)
    as [-> _]; [by right | done | eauto].
Qed.

(** X21. When [postbuild] rejects: without [conf.functions] it rejects at
    once and touches nothing; with an empty object it resolves and touches
    nothing; and otherwise it rejects exactly when the processing of one of
    the functions does, the final write of the redirects file never
    rejecting. *)
Theorem postbuild_outcome (entries : list (string * Conf.functionData)) (d : disk) :
  build None d = (Rejected (Failure "You must provide functions to the functions plugin"), d)
  ∧ build (Some []) d = (Resolved tt, d)
  ∧ (build (Some entries) d).1 =
      (promise_all
         (map (λ f, process f (path_join (path_join cwd "build") "functions") ;;; ret tt)
            (functions (collect path_resolve entries))) d).1.
Proof.
  split; [reflexivity|]. split; [reflexivity|].
  unfold postbuild, bind at 1.
  destruct (promise_all _ d) as [[[]|e] d1]; [|reflexivity].
  destruct (collect_fold path_resolve entries) as (_ & _ & ->).
  unfold bind, ret.
  destruct (writeRewrites_resolves (path_join cwd "build")
              (rewrites (collect path_resolve entries)) d1) as [r Hr].
  destruct (writeRedirectsFile _ _ _ _ d1) as [[?|?] ?]; cbn in Hr |- *;
    [done | discriminate].
Qed.

(** X22. The redirects file of a build: when the functions are processed
    without a rejection and leave no [_redirects] file behind, [postbuild]
    writes one that holds the header comment, an empty line and then one
    line per configured function, in key order, sending the path of the
    function to [/.netlify/functions/<name>] with status 200. *)
Theorem postbuild_redirects_file (entries : list (string * Conf.functionData))
    (d processed : disk) :
  let buildFolder := path_join cwd "build" in
  let FILE_PATH := path_join buildFolder "_redirects" in
  entries ≠ [] →
  promise_all
    (map (λ f, process f (path_join buildFolder "functions") ;;; ret tt)
       (functions (collect path_resolve entries))) d = (Resolved tt, processed) →
  files processed !! FILE_PATH = None →
  files (build (Some entries) d).2 =
    <[FILE_PATH :=
        HEADER_COMMENT +:+ newline +:+ newline
          +:+ join newline
                (map (λ entry : string * Conf.functionData,
                        toString (Conf.path entry.2) +:+ "  "
                          +:+ ("/.netlify/functions/" +:+ entry.1) +:+ "  200")
                   entries)]>
      (files processed).
Proof.
  intros buildFolder FILE_PATH Hne Hprocessed Hnone.
  unfold postbuild. fold buildFolder. unfold bind at 1. rewrite Hprocessed.
  destruct (collect_fold path_resolve entries) as (Hrw & _ & Hrd).
  rewrite Hrd, Hrw.
  destruct (writeRedirectsFile_run path_join buildFolder []
              (map (λ entry : string * Conf.functionData,
                      Rewrite (Conf.path entry.2)
                        (JString ("/.netlify/functions/" +:+ entry.1))) entries)
              [] processed) as [Hres Hfiles].
  { right. by destruct entries. }
  { done. }
  fold FILE_PATH in Hfiles. rewrite Hnone in Hfiles.
  unfold bind, ret.
  destruct (writeRedirectsFile _ _ _ _ processed) as [[r|e] written];
    cbn [fst snd] in *; [|discriminate].
  rewrite Hfiles. cbn [app]. by rewrite map_map.
Qed.

End PluginRun.

(** * The further properties on the sample builds *)

Section MoreExamples.

Import Update.

Local Abbreviation sampleUpdate parse :=
  (updateConfig Sample.applyMutations (λ c _ _, c) parse
     Sample.mergeConfigs (λ c _ _ _, Resolved c) (λ c _ _ _, Resolved c)
     (λ c, c) (λ _, "# merged")).

Lemma updateConfig_then_restoreConfig_witness :
  let updated :=
    (Sample.updateConfig Sample.setHeaders Sample.site Sample.siteDisk).2 in
  let restored := (restoreConfig Sample.setHeaders Sample.site updated).2 in
  content updated (Some "site/_headers") = None
  ∧ content restored (Some "site/_headers") = Some "/* X-Frame-Options: DENY"
  ∧ content updated (Some "site/netlify.toml") = Some "# merged"
  ∧ content restored (Some "site/netlify.toml") = None.
Proof.
  intros updated restored.
  pose proof (λ s,
    updateConfig_then_restoreConfig
      Sample.applyMutations (λ c _ _, c) (λ _ _, Resolved ∅)
      Sample.mergeConfigs (λ c _ _ _, Resolved c) (λ c _ _ _, Resolved c)
      (λ c, c) (λ _, "# merged")
      Sample.setHeaders Sample.site Sample.siteDisk updated s
      ltac:(discriminate) eq_refl ltac:(vm_compute; reflexivity)) as Hcycle.
  split; [reflexivity|]. split; [apply (Hcycle HeadersSlot)|].
  split; [reflexivity|]. apply (Hcycle ConfigSlot).
Defined.

Lemma updateConfig_persists_witness :
  Sample.setHeaders ≠ []
  ∧ liveDistinct Sample.site = true
  ∧ content (Sample.updateConfig Sample.setHeaders Sample.site Sample.siteDisk).2
      (Some "site/netlify.toml") = Some "# merged".
Proof.
  split; [discriminate|]. split; [reflexivity|].
  destruct (updateConfig_persists
              Sample.applyMutations (λ c _ _, c) (λ _ _, Resolved ∅)
              Sample.mergeConfigs (λ c _ _ _, Resolved c) (λ c _ _ _, Resolved c)
              (λ c, c) (λ _, "# merged")
              Sample.setHeaders Sample.site Sample.siteDisk
              (Sample.updateConfig Sample.setHeaders Sample.site Sample.siteDisk).2)
    as (config & withHeaders & final & _ & _ & _ & Hfile);
    [discriminate | reflexivity | vm_compute; reflexivity | exact Hfile].
Defined.

Lemma updateConfig_reader_rejects_witness :
  sampleUpdate (λ _ _, Rejected (Failure "not TOML")) Sample.setHeaders
    Sample.site Sample.siteDisk
  = (Rejected (Failure "not TOML"), Sample.siteDisk).
Proof.
  apply (updateConfig_reader_rejects
           Sample.applyMutations (λ c _ _, c) (λ _ _, Rejected (Failure "not TOML"))
           Sample.mergeConfigs (λ c _ _ _, Resolved c) (λ c _ _ _, Resolved c)
           (λ c, c) (λ _, "# merged")
           Sample.setHeaders Sample.site Sample.siteDisk (Failure "not TOML"));
    [discriminate | by left].
Defined.



Lemma restoreConfig_touches_live_paths_only_witness :
  (∀ s, livePath Sample.site s ≠ Some "site/index.html")
  ∧ files (restoreConfig Sample.setHeaders Sample.site
             (Disk {[ "site/index.html" := "<html>" ]} ∅ [])).2 !! "site/index.html"
    = Some "<html>".
Proof.
  assert (∀ s, livePath Sample.site s ≠ Some "site/index.html") as Hother
    by (by intros []).
  split; [exact Hother|].
  rewrite (restoreConfig_touches_live_paths_only Sample.setHeaders Sample.site
             (Disk {[ "site/index.html" := "<html>" ]} ∅ []) "site/index.html" Hother).
  reflexivity.
Defined.

Lemma restoreConfig_resolves_iff_witness :
  Sample.setHeaders ≠ []
  ∧ liveOutsideBackups Sample.site = true
  ∧ (restoreConfig Sample.setHeaders Sample.site Sample.siteDisk).1 = Resolved tt.
Proof.
  split; [discriminate|]. split; [reflexivity|].
  apply (restoreConfig_resolves_iff Sample.setHeaders Sample.site Sample.siteDisk);
    [discriminate | reflexivity |].
  intros s _. destruct s; by eexists.
Defined.

End MoreExamples.

Section MoreDispatchExamples.

Import Dispatch.

Lemma runCommand_skips_everything_witness :
  Sample.runCommand (Sample.onBuildOf "netlify-plugin-a" ["netlify-plugin-a"]) tt
  = (Resolved ∅, tt).
Proof.
  apply (runCommand_skips_everything
           (runsAlsoOnBuildFailure Sample.categoryOf)
           (runsOnlyOnBuildFailure Sample.categoryOf)
           (λ constants _, ret constants) (λ _, ret tt)
           (λ _ _, ret tt) (λ _, ret tt) (λ _ _, ret tt)
           (λ fire _ a, fire a) (λ name, default "" name) (λ _ _, ret ∅)
           (Sample.onBuildOf "netlify-plugin-a" ["netlify-plugin-a"]) tt tt tt);
    reflexivity.
Defined.

Lemma runCommand_returns_post_processed_witness :
  ∃ newValues : gmap string (value unit),
    (Sample.runCommand (Sample.onBuildOf "netlify-plugin-a" []) tt).1
    = Resolved (<["newIndex" := VNumber 4]> newValues).
Proof.
  destruct (runCommand_returns_post_processed
              (runsAlsoOnBuildFailure Sample.categoryOf)
              (runsOnlyOnBuildFailure Sample.categoryOf)
              (λ constants _, ret constants) (λ _, ret tt)
              (λ _ _, ret tt) (λ _, ret tt) (λ _ _, ret tt)
              (λ fire _ a, fire a) (λ name, default "" name) (λ _ _, ret ∅)
              (Sample.onBuildOf "netlify-plugin-a" []) tt tt
              ({[ "newIndex" := VNumber 4 ]} : gmap string (value unit)))
    as (constantsA & w1 & w2 & fired & w3 & newValues & _ & _ & _ & _ & Hret & _);
    [vm_compute; reflexivity | reflexivity |].
  exists newValues. unfold Sample.runCommand.
  transitivity (Resolved ({[ "newIndex" := VNumber 4 ]} : gmap string (value unit)));
    [vm_compute; reflexivity | by rewrite Hret].
Defined.

Lemma runCommand_rejects_only_through_collaborators_witness :
  let run :=
    runCommand (BuildError := unit) (CoreCommand := unit) (Passed := unit)
      (Opaque := unit)
      (runsAlsoOnBuildFailure Sample.categoryOf)
      (runsOnlyOnBuildFailure Sample.categoryOf)
      (λ constants _, ret constants) (λ _, ret tt)
      (λ _ _, ret tt) (λ _, ret tt)
      (λ _ _ (w : unit), (Rejected (Failure "plugin threw"), w))
      (λ fire _ a, fire a) (λ name, default "" name) (λ _ _, ret ∅) in
  run (Sample.onBuildOf "netlify-plugin-a" []) tt
    = (Rejected (Failure "plugin threw"), tt)
  ∧ shouldRunCommand (runsAlsoOnBuildFailure Sample.categoryOf)
      (runsOnlyOnBuildFailure Sample.categoryOf) "onBuild"
      (Some "netlify-plugin-a") (None : option unit) [] = true.
Proof.
  intros run.
  assert (run (Sample.onBuildOf "netlify-plugin-a" []) tt
          = (Rejected (Failure "plugin threw"), tt)) as Hrun
    by (vm_compute; reflexivity).
  split; [exact Hrun|]. subst run.
  destruct (runCommand_rejects_only_through_collaborators _ _ _ _ _ _ _ _ _ _
              _ _ _ _ Hrun) as [Hconst | [Hyes _]];
    [discriminate Hconst | exact Hyes].
Defined.

Lemma shouldRunCommand_failed_plugins_witness :
  ["netlify-plugin-b"] ⊆ ["netlify-plugin-b"; "netlify-plugin-c"]
  ∧ shouldRunCommand (runsAlsoOnBuildFailure Sample.categoryOf)
      (runsOnlyOnBuildFailure Sample.categoryOf) "onBuild"
      (Some "netlify-plugin-a") (None : option unit) ["netlify-plugin-b"] = true.
Proof.
  assert (["netlify-plugin-b"] ⊆ ["netlify-plugin-b"; "netlify-plugin-c"])
    as Hsub.
  { intros x Hx. inversion Hx as [|? ? ? Hnil]; subst;
      [by constructor | inversion Hnil]. }
  split; [exact Hsub|].
  destruct (shouldRunCommand_failed_plugins (BuildError := unit)
              (runsAlsoOnBuildFailure Sample.categoryOf)
              (runsOnlyOnBuildFailure Sample.categoryOf) "onBuild"
              (Some "netlify-plugin-a") None
              ["netlify-plugin-b"] ["netlify-plugin-b"; "netlify-plugin-c"])
    as [Hmono _].
  apply Hmono; [exact Hsub | reflexivity].
Defined.

End MoreDispatchExamples.

Section MoreRedirectsExamples.

Import Redirects Functions.

Local Abbreviation apiRewrite :=
  (Rewrite (JString "/api") (JString "/.netlify/functions/api")).

Local Abbreviation forcedNumber :=
  (Redirect (JString "/old") JUndefined JUndefined (JBool true) (JString "/new")
     (JNumber 301) []).

Lemma writeRedirectsFile_second_run_overwrites_witness :
  let userRules := Disk {[ "build/_redirects" := "/old  /new  301" ]} ∅ [] in
  let first := writeRedirectsFile Sample.path_join "build" [] [apiRewrite] userRules in
  let second := writeRedirectsFile Sample.path_join "build" [] [apiRewrite] first.2 in
  files first.2 !! "build/_redirects" =
    Some ("/old  /new  301" +:+ newline +:+ newline +:+ HEADER_COMMENT
            +:+ newline +:+ newline +:+ "/api  /.netlify/functions/api  200")
  ∧ files second.2 !! "build/_redirects" =
      Some (HEADER_COMMENT +:+ newline +:+ newline
              +:+ "/api  /.netlify/functions/api  200").
Proof.
  intros userRules first second. split; [reflexivity|].
  destruct (writeRedirectsFile_second_run_overwrites Sample.path_join "build"
              [] [] [apiRewrite] [apiRewrite] [] [] userRules)
    as [_ Hfiles]; [by right | by right | reflexivity | reflexivity |].
  subst second first. rewrite Hfiles. reflexivity.
Defined.

Lemma writeRedirectsFile_replaces_marked_file_witness :
  let earlier :=
    Disk {[ "build/_redirects" := HEADER_COMMENT +:+ newline +:+ "/stale  /x  200" ]}
      ∅ [] in
  (0 ≤ indexOf (HEADER_COMMENT +:+ newline +:+ "/stale  /x  200") HEADER_COMMENT)%Z
  ∧ files (writeRedirectsFile Sample.path_join "build" [] [apiRewrite] earlier).2
      !! "build/_redirects" =
      Some (HEADER_COMMENT +:+ newline +:+ newline
              +:+ "/api  /.netlify/functions/api  200").
Proof.
  intros earlier. split; [by vm_compute|].
  rewrite (writeRedirectsFile_replaces_marked_file Sample.path_join "build"
             [] [apiRewrite] []
             (HEADER_COMMENT +:+ newline +:+ "/stale  /x  200") earlier);
    [reflexivity | by right | reflexivity | reflexivity | by vm_compute].
Defined.

Lemma writeRedirectsFile_rejects_forced_number_witness :
  ∃ e, writeRedirectsFile Sample.path_join "build" [forcedNumber] []
         Sample.siteDisk = (Rejected e, Sample.siteDisk).
Proof.
  apply (writeRedirectsFile_rejects_forced_number Sample.path_join "build"
           [forcedNumber] [] forcedNumber Sample.siteDisk);
    [by constructor | reflexivity | reflexivity | discriminate].
Defined.

Lemma formatRedirect_drops_spaced_value_witness :
  (0 ≤ indexOf "a b" " ")%Z
  ∧ formatRedirect
      (Redirect (JString "/old") JUndefined JUndefined JUndefined (JString "/new")
         JUndefined [("Country", JString "a b"); ("Language", JString "en")])
    = Resolved "/old  /new  302  Language=en".
Proof.
  assert (0 ≤ indexOf "a b" " ")%Z as Hspace by (by vm_compute).
  split; [exact Hspace|].
  rewrite (formatRedirect_drops_spaced_value
             (Redirect (JString "/old") JUndefined JUndefined JUndefined
                (JString "/new") JUndefined
                [("Country", JString "a b"); ("Language", JString "en")])
             [] [("Language", JString "en")] "Country" "a b" Hspace eq_refl).
  reflexivity.
Defined.

Lemma tempFileName_spec_witness :
  tempFileName "/repo/src/hello.js" = "/repo/src/hello-temp.js"
  ∧ tempFileName "/repo/src/hello.ts" = "/repo/src/hello.ts".
Proof.
  destruct (tempFileName_spec "/repo/src/hello" "/repo/src/hello.ts")
    as [Hjs Hother].
  split; [exact Hjs|]. apply Hother.
  intros stem' E.
  destruct (tempFileName_spec stem' "") as [Hstem _].
  rewrite <- E in Hstem.
  change (tempFileName "/repo/src/hello.ts") with "/repo/src/hello.ts" in Hstem.
  rewrite E in Hstem. apply (inj (String.append stem')) in Hstem.
  discriminate Hstem.
Defined.

Lemma processFunction_restores_source_witness :
  let run := Sample.processFunction Sample.hello "/repo/build/functions"
               Sample.repoDisk in
  tempFileName "/repo/src/hello.js" ≠ "/repo/src/hello.js"
  ∧ files run.2 !! "/repo/src/hello.js" = Some "exports.handler = () => {}"
  ∧ files run.2 !! "/repo/src/hello-temp.js" = None.
Proof.
  intros run. split; [discriminate|].
  destruct (processFunction_restores_source (λ p, p) Sample.zipFunction
              Sample.matchesWrapper Sample.hello "/repo/build/functions"
              "exports.handler = () => {}" Sample.repoDisk)
    as (wrapped & _ & _ & _ & Hsource & Htemp);
    [discriminate | reflexivity | reflexivity | | by split].
  intros x. split; [reflexivity|].
  unfold Sample.zipFunction. cbn [snd files set_files].
  by rewrite lookup_insert_ne.
Defined.

Lemma processFunction_missing_source_witness :
  (Sample.processFunction Sample.hello "/repo/build/functions" (Disk ∅ ∅ [])).1
  = Rejected (ENOENT "/repo/src/hello.js").
Proof.
  apply (processFunction_missing_source (λ p, p) Sample.zipFunction
           Sample.matchesWrapper Sample.hello "/repo/build/functions"
           (Disk ∅ ∅ [])); reflexivity.
Defined.

Lemma postbuild_redirects_file_witness :
  files (Sample.postbuild (Some [Sample.helloEntry]) Sample.repoDisk).2
    !! "/repo/build/_redirects"
  = Some (HEADER_COMMENT +:+ newline +:+ newline
            +:+ "/api/hello  /.netlify/functions/hello  200").
Proof.
  unfold Sample.postbuild.
  rewrite (postbuild_redirects_file Sample.path_join (λ handler, "/repo/" +:+ handler)
             (λ p, p) "/repo" Sample.zipFunction Sample.matchesWrapper
             [Sample.helloEntry] Sample.repoDisk
             (Sample.processFunction Sample.hello "/repo/build/functions"
                Sample.repoDisk).2);
    [reflexivity | discriminate | vm_compute; reflexivity | reflexivity].
Defined.

End MoreRedirectsExamples.

Section MoreUpdateExamples.

Import Update.

(** X25. [deleteSideFile] never rejects, also when the key is not in the
    configuration, the path is [undefined] or the file is missing; and it
    changes no path other than its own. *)
Theorem deleteSideFile_is_safe {Value : Type} (filePath : option string)
    (propName : string) (normalizedInlineConfig : gmap string Value) (d : disk)
    (k : string) :
  (deleteSideFile filePath propName normalizedInlineConfig d).1 = Resolved tt
  ∧ (filePath ≠ Some k →
     files (deleteSideFile filePath propName normalizedInlineConfig d).2 !! k
     = files d !! k).
Proof.
  destruct (deleteSideFile_run filePath propName normalizedInlineConfig d)
    as [-> ->].
  split; [done|]. intros Hne.
  destruct (normalizedInlineConfig !! propName); [|done].
  destruct filePath as [p|]; [|done].
  rewrite lookup_delete_ne; congruence.
Qed.

Lemma deleteSideFile_is_safe_witness :
  (deleteSideFile (Some "site/_headers") "headers"
     ({[ "headers" := "[[headers]]" ]} : gmap string string) (Disk ∅ ∅ [])).1
  = Resolved tt
  ∧ files (deleteSideFile (Some "site/_headers") "headers"
             ({[ "headers" := "[[headers]]" ]} : gmap string string)
             Sample.siteDisk).2 !! "site/_redirects"
    = Some "/old /new 301".
Proof.
  split.
  - apply (deleteSideFile_is_safe (Some "site/_headers") "headers"
             ({[ "headers" := "[[headers]]" ]} : gmap string string)
             (Disk ∅ ∅ []) "").
  - destruct (deleteSideFile_is_safe (Some "site/_headers") "headers"
                ({[ "headers" := "[[headers]]" ]} : gmap string string)
                Sample.siteDisk "site/_redirects") as [_ ->];
      [reflexivity | discriminate].
Defined.

Lemma backupConfig_then_restoreConfig_witness :
  Sample.setHeaders ≠ []
  ∧ liveOutsideBackups Sample.site = true
  ∧ content
      (restoreConfig Sample.setHeaders Sample.site
         (backupConfig "site" (Some "site/netlify.toml") (Some "site/_headers")
            (Some "site/_redirects") Sample.siteDisk).2).2
      (Some "site/_redirects")
    = Some "/old /new 301".
Proof.
  split; [discriminate|]. split; [reflexivity|].
  apply (backupConfig_then_restoreConfig Sample.setHeaders Sample.site
           Sample.siteDisk RedirectsSlot); [discriminate | reflexivity].
Defined.

Lemma restoreConfig_no_backup_at_all_witness :
  Sample.setHeaders ≠ []
  ∧ (∀ s, files Sample.siteDisk !! backupPath "site" s = None)
  ∧ content (restoreConfig Sample.setHeaders Sample.site Sample.siteDisk).2
      (Some "site/_redirects") = None.
Proof.
  assert (∀ s, files Sample.siteDisk !! backupPath "site" s = None) as Hnone
    by (by intros []).
  split; [discriminate|]. split; [exact Hnone|].
  apply (restoreConfig_no_backup_at_all Sample.setHeaders Sample.site
           Sample.siteDisk RedirectsSlot); [discriminate | exact Hnone].
Defined.

End MoreUpdateExamples.
